(** * The Activation view set of eda-server, embedded and verified

    Shallow embedding of [src/aap_eda/api/views/activation.py]: the
    conflict resolver [handle_activation_create_conflict] and the
    [create], [retrieve], [perform_destroy], [enable], [disable] and
    [restart] handlers of [ActivationViewSet], followed by its listings
    ([list], [instances], the [logs] of [ActivationInstanceViewSet]) and
    by the computed values of [src/aap_eda/settings/default.py].

    The handlers run in a state-and-exception monad over a [World]: the
    database rows, the clock, the job-queue handle counter and the trace
    of observable events (row writes, dispatches, deletions) in the order
    in which the code performs them. *)

From stdpp Require Import gmap strings list fin_maps pretty sorting.
From Stdlib Require Import ZArith Lia.

Open Scope Z_scope.
Open Scope string_scope.
Open Scope list_scope.

(** ** Python strings *)

Module PyStr.

Definition upper_ascii (c : Ascii.ascii) : Ascii.ascii :=
  let n := Ascii.nat_of_ascii c in
  if ((97 <=? n) && (n <=? 122))%nat then Ascii.ascii_of_nat (n - 32) else c.

Definition lower_ascii (c : Ascii.ascii) : Ascii.ascii :=
  let n := Ascii.nat_of_ascii c in
  if ((65 <=? n) && (n <=? 90))%nat then Ascii.ascii_of_nat (n + 32) else c.

Fixpoint lower (s : string) : string :=
  match s with
  | EmptyString => EmptyString
  | String c r => String (lower_ascii c) (lower r)
  end.

(** [str.capitalize()]: first character upper-cased, the rest lower-cased. *)
Definition capitalize (s : string) : string :=
  match s with
  | EmptyString => EmptyString
  | String c r => String (upper_ascii c) (lower r)
  end.

(** [str(n)] for an int, as interpolated by an f-string. *)
Definition str (n : Z) : string := pretty n.

End PyStr.

(** ** Data model *)

(** Modelled from the spec: the enum [aap_eda.core.enums.ActivationStatus]
    (its declaration is not part of the sources at hand), with the nine
    members the data model lists. *)
Inductive ActivationStatus :=
| PENDING | STARTING | RUNNING | STOPPING | STOPPED
| FAILED | COMPLETED | UNRESPONSIVE | ERROR.

#[global] Instance ActivationStatus_eq_dec : EqDecision ActivationStatus.
Proof. solve_decision. Defined.

(** One entry of [ruleset_stats]. *)
Record RulesetStat := {
  numberOfRules : Z;
  rulesTriggered : Z;
}.

(** A row of [models.Activation]; nullable columns are options. *)
Record Activation := {
  id : Z;
  name : string;
  is_enabled : bool;
  status : ActivationStatus;
  failure_count : Z;
  restart_count : Z;
  current_job_id : option Z;
  project_id : option Z;
  rulebook_id : option Z;
  decision_environment_id : option Z;
  extra_var_id : option Z;
  ruleset_stats : gmap string RulesetStat;
  modified_at : Z;
}.

(** A row of [models.ActivationInstance]. *)
Record ActivationInstance := {
  inst_id : Z;
  inst_activation_id : Z;
  inst_status : ActivationStatus;
  started_at : Z;
}.

(** Modelled from the spec: the rows of the referenced entities (Project,
    Rulebook, DecisionEnvironment, ExtraVar of [aap_eda.core.models], not
    part of the sources at hand); only the key and a name are kept. *)
Record RefRow := {
  ref_pk : Z;
  ref_name : string;
}.

(** The tables.  [instances] lists the instance rows in the order in which
    a queryset over them yields its rows. *)
Record DB := {
  activations : gmap Z Activation;
  instances : list ActivationInstance;
  projects : gmap Z RefRow;
  rulebooks : gmap Z RefRow;
  decision_environments : gmap Z RefRow;
  extra_vars : gmap Z RefRow;
}.

(** Jobs handed to the task queue with [.delay(...)]. *)
Inductive Job :=
| activate_rulesets (is_restart : bool) (activation_id : Z)
    (deployment_type ws_base_url ssl_verify : string)
| deactivate_rulesets (activation_instance_id : Z) (deployment_type : string)
| deactivate (activation_id : Z).

(** What a handler does to the outside, in program order. *)
Inductive Event :=
| EvInsert (activation_id : Z)
| EvSave (activation_id : Z) (update_fields : list string)
| EvDispatch (j : Job)
| EvDelete (activation_id : Z).

Record World := {
  db : DB;
  now : Z;
  next_job : Z;
  events : list Event;
}.

(** [settings.DEPLOYMENT_TYPE] and the websocket settings. *)
Record Settings := {
  DEPLOYMENT_TYPE : string;
  WEBSOCKET_BASE_URL : string;
  WEBSOCKET_SSL_VERIFY : string;
}.

(** The defaults of [settings/default.py]. *)
Definition default_settings : Settings := {|
  DEPLOYMENT_TYPE := "local";
  WEBSOCKET_BASE_URL := "ws://localhost:8000";
  WEBSOCKET_SSL_VERIFY := "yes";
|}.

(** ** Exceptions and the handler monad *)

Inductive Exn :=
| Unprocessable (detail : string)
| HttpForbidden (detail : string)
| NotFound (detail : string)
| Http404
| ValidationError
| DoesNotExist
| DatabaseError.

Inductive Result (A : Type) :=
| Ok (a : A)
| Raise (e : Exn).
Arguments Ok {A} a.
Arguments Raise {A} e.

Definition M (A : Type) : Type := World -> Result A * World.

Definition ret {A} (a : A) : M A := fun w => (Ok a, w).

Definition bind {A B} (m : M A) (k : A -> M B) : M B :=
  fun w =>
    match m w with
    | (Ok a, w') => k a w'
    | (Raise e, w') => (Raise e, w')
    end.

Definition raise {A} (e : Exn) : M A := fun w => (Raise e, w).

Definition get_db : M DB := fun w => (Ok (db w), w).

Declare Scope handler_scope.
Delimit Scope handler_scope with handler.
Notation "x <- m ;; k" := (bind m (fun x => k))
  (at level 100, m at next level, right associativity) : handler_scope.
Notation "m ;;; k" := (bind m (fun _ => k))
  (at level 100, right associativity) : handler_scope.
Open Scope handler_scope.

(** [for x in xs: body(x)]. *)
Fixpoint for_each {A} (xs : list A) (body : A -> M unit) : M unit :=
  match xs with
  | [] => ret tt
  | x :: rest => body x ;;; for_each rest body
  end.

(** The jobs a trace dispatched, in order. *)
Definition dispatched (es : list Event) : list Job :=
  omap (fun e => match e with EvDispatch j => Some j | _ => None end) es.

Definition is_activate (j : Job) : bool :=
  match j with activate_rulesets _ _ _ _ _ => true | _ => false end.

Definition is_deactivate (j : Job) : bool :=
  match j with
  | deactivate_rulesets _ _ => true
  | deactivate _ => true
  | _ => false
  end.

(** ** The conflict resolver *)

(** [Model.objects.filter(pk=object_id).exists()]. *)
Definition pk_exists (table : gmap Z RefRow) (pk : Z) : bool :=
  bool_decide (is_Some (table !! pk)).

(** [activation.get(key)] on the validated data: the value of an id field
    is an int or [None], and a missing key reads as [None]. *)
Definition dict_get (activation : gmap string (option Z)) (key : string)
  : option Z :=
  default None (activation !! key).

Definition activation_dependent_objects (d : DB)
    (activation : gmap string (option Z))
  : list (gmap Z RefRow * string * option Z) :=
  [ (decision_environments d, "decision_environment",
     dict_get activation "decision_environment_id");
    (projects d, "project", dict_get activation "project_id");
    (rulebooks d, "rulebook", dict_get activation "rulebook_id");
    (extra_vars d, "extra_var", dict_get activation "extra_var_id") ].

Definition does_not_exist_detail (object_name : string) (object_id : Z)
  : string :=
  PyStr.capitalize object_name +:+ " with ID=" +:+ PyStr.str object_id
    +:+ " does not exist.".

(** The [for] loop of the resolver; falling out of it reaches the final
    [raise]. *)
Fixpoint conflict_loop (objs : list (gmap Z RefRow * string * option Z))
  : Exn :=
  match objs with
  | [] => Unprocessable "Integrity error."
  | (object_model, object_name, None) :: rest => conflict_loop rest
  | (object_model, object_name, Some object_id) :: rest =>
      if negb (pk_exists object_model object_id)
      then Unprocessable (does_not_exist_detail object_name object_id)
      else conflict_loop rest
  end.

Definition handle_activation_create_conflict {A}
    (activation : gmap string (option Z)) : M A :=
  d <- get_db ;;
  raise (conflict_loop (activation_dependent_objects d activation)).

(** ** The model layer the view set calls into *)

Definition set_is_enabled (v : bool) (a : Activation) : Activation :=
  {| id := id a; name := name a; is_enabled := v; status := status a;
     failure_count := failure_count a; restart_count := restart_count a;
     current_job_id := current_job_id a; project_id := project_id a;
     rulebook_id := rulebook_id a;
     decision_environment_id := decision_environment_id a;
     extra_var_id := extra_var_id a; ruleset_stats := ruleset_stats a;
     modified_at := modified_at a |}.

Definition set_status (v : ActivationStatus) (a : Activation) : Activation :=
  {| id := id a; name := name a; is_enabled := is_enabled a; status := v;
     failure_count := failure_count a; restart_count := restart_count a;
     current_job_id := current_job_id a; project_id := project_id a;
     rulebook_id := rulebook_id a;
     decision_environment_id := decision_environment_id a;
     extra_var_id := extra_var_id a; ruleset_stats := ruleset_stats a;
     modified_at := modified_at a |}.

Definition set_failure_count (v : Z) (a : Activation) : Activation :=
  {| id := id a; name := name a; is_enabled := is_enabled a;
     status := status a; failure_count := v;
     restart_count := restart_count a;
     current_job_id := current_job_id a; project_id := project_id a;
     rulebook_id := rulebook_id a;
     decision_environment_id := decision_environment_id a;
     extra_var_id := extra_var_id a; ruleset_stats := ruleset_stats a;
     modified_at := modified_at a |}.

Definition set_restart_count (v : Z) (a : Activation) : Activation :=
  {| id := id a; name := name a; is_enabled := is_enabled a;
     status := status a; failure_count := failure_count a;
     restart_count := v;
     current_job_id := current_job_id a; project_id := project_id a;
     rulebook_id := rulebook_id a;
     decision_environment_id := decision_environment_id a;
     extra_var_id := extra_var_id a; ruleset_stats := ruleset_stats a;
     modified_at := modified_at a |}.

Definition set_current_job_id (v : option Z) (a : Activation) : Activation :=
  {| id := id a; name := name a; is_enabled := is_enabled a;
     status := status a; failure_count := failure_count a;
     restart_count := restart_count a;
     current_job_id := v; project_id := project_id a;
     rulebook_id := rulebook_id a;
     decision_environment_id := decision_environment_id a;
     extra_var_id := extra_var_id a; ruleset_stats := ruleset_stats a;
     modified_at := modified_at a |}.

Definition set_modified_at (v : Z) (a : Activation) : Activation :=
  {| id := id a; name := name a; is_enabled := is_enabled a;
     status := status a; failure_count := failure_count a;
     restart_count := restart_count a;
     current_job_id := current_job_id a; project_id := project_id a;
     rulebook_id := rulebook_id a;
     decision_environment_id := decision_environment_id a;
     extra_var_id := extra_var_id a; ruleset_stats := ruleset_stats a;
     modified_at := v |}.

(** One column of an [UPDATE ... SET]: the stored row takes the value the
    in-memory object has for the column named [field].  Only the columns
    the view set ever lists in [update_fields] occur. *)
Definition write_field (mem : Activation) (row : Activation) (field : string)
  : Activation :=
  if decide (field = "is_enabled") then set_is_enabled (is_enabled mem) row
  else if decide (field = "status") then set_status (status mem) row
  else if decide (field = "failure_count")
       then set_failure_count (failure_count mem) row
  else if decide (field = "restart_count")
       then set_restart_count (restart_count mem) row
  else if decide (field = "current_job_id")
       then set_current_job_id (current_job_id mem) row
  else if decide (field = "modified_at")
       then set_modified_at (modified_at mem) row
  else row.

Definition set_activations (t : gmap Z Activation) (d : DB) : DB :=
  {| activations := t; instances := instances d; projects := projects d;
     rulebooks := rulebooks d;
     decision_environments := decision_environments d;
     extra_vars := extra_vars d |}.

(** [activation.save(update_fields=...)]: the listed columns of the stored
    row take the values of the object; a row that is gone makes the write
    fail.  [modified_at] is a timestamp the model layer refreshes on every
    save that lists it: the object takes the current time before the
    write.  The object as it is after the call is returned. *)
Definition save (update_fields : list string) (mem : Activation)
  : M Activation :=
  fun w =>
    match activations (db w) !! id mem with
    | None => (Raise DatabaseError, w)
    | Some row =>
        let mem' :=
          if bool_decide ("modified_at" ∈ update_fields)
          then set_modified_at (now w) mem else mem in
        (Ok mem',
         {| db := set_activations
                    (<[id mem := foldl (write_field mem') row update_fields]>
                       (activations (db w)))
                    (db w);
            now := now w; next_job := next_job w;
            events := events w ++ [EvSave (id mem) update_fields] |})
    end.

(** [get_object_or_404(models.Activation, pk=pk)]. *)
Definition get_object_or_404 (pk : Z) : M Activation :=
  d <- get_db ;;
  match activations d !! pk with
  | Some a => ret a
  | None => raise Http404
  end.

(** [Model.objects.get(pk=pk)]. *)
Definition objects_get (table : gmap Z RefRow) (pk : Z) : M RefRow :=
  match table !! pk with
  | Some r => ret r
  | None => raise DoesNotExist
  end.

(** [models.ActivationInstance.objects.filter(activation_id=pk)]. *)
Definition instances_of (d : DB) (pk : Z) : list ActivationInstance :=
  filter (fun i => inst_activation_id i = pk) (instances d).

(** [models.ActivationInstance.objects.filter(activation_id=pk,
    status=ActivationStatus.RUNNING)]. *)
Definition running_instances_of (d : DB) (pk : Z) : list ActivationInstance :=
  filter (fun i => inst_activation_id i = pk ∧ inst_status i = RUNNING)
    (instances d).

(** [task.delay(...)]: the job is put on the queue and its handle, whose
    [id] is fresh, is returned. *)
Definition delay (j : Job) : M Z :=
  fun w =>
    (Ok (next_job w),
     {| db := db w; now := now w; next_job := next_job w + 1;
        events := events w ++ [EvDispatch j] |}).

(** Modelled from the spec: [Model.delete()] of an Activation row
    ([aap_eda.core.models] is not part of the sources at hand); the
    deletion removes the row and, the Activation owning its instances,
    the instance rows that belong to it. *)
Definition model_delete (a : Activation) : M unit :=
  fun w =>
    (Ok tt,
     {| db := {| activations := delete (id a) (activations (db w));
                 instances :=
                   filter (fun i => inst_activation_id i ≠ id a)
                     (instances (db w));
                 projects := projects (db w);
                 rulebooks := rulebooks (db w);
                 decision_environments := decision_environments (db w);
                 extra_vars := extra_vars (db w) |};
        now := now w; next_job := next_job w;
        events := events w ++ [EvDelete (id a)] |}).

(** ** Responses *)

Definition HTTP_200_OK : Z := 200.
Definition HTTP_201_CREATED : Z := 201.
Definition HTTP_204_NO_CONTENT : Z := 204.
Definition HTTP_409_CONFLICT : Z := 409.

(** The dict [_get_activation_dependent_objects] returns: the serialized
    row with the referenced objects, the instances and [restarted_at]. *)
Record ActivationDeps := {
  dep_activation : Activation;
  dep_project : option RefRow;
  dep_decision_environment : option RefRow;
  dep_rulebook : option RefRow;
  dep_extra_var : option RefRow;
  dep_instances : list ActivationInstance;
  dep_restarted_at : option Z;
}.

(** The same dict once [rules_count] and [rules_fired_count] are set. *)
Record ActivationRead := {
  deps : ActivationDeps;
  rules_count : Z;
  rules_fired_count : Z;
}.

Record Response := {
  data : option ActivationRead;
  status_code : Z;
}.

(** Modelled from the spec: the status each exception of
    [aap_eda.api.exceptions] turns into (the module is not part of the
    sources at hand), after the error taxonomy. *)
Definition exn_status_code (e : Exn) : Z :=
  match e with
  | Unprocessable _ => 422
  | HttpForbidden _ => 403
  | NotFound _ => 404
  | Http404 => 404
  | ValidationError => 400
  | DoesNotExist => 500
  | DatabaseError => 500
  end.

(** ** The view set *)

(** [ActivationViewSet._get_rules_count]. *)
Definition _get_rules_count (ruleset_stats : gmap string RulesetStat)
  : Z * Z :=
  foldl
    (fun '(rules_count, rules_fired_count) ruleset_stat =>
       (rules_count + numberOfRules ruleset_stat,
        rules_fired_count + rulesTriggered ruleset_stat))
    (0, 0)
    (snd <$> map_to_list ruleset_stats).

(** [queryset.latest("started_at").started_at] of a queryset with rows. *)
Definition latest_started_at (first : ActivationInstance)
    (rest : list ActivationInstance) : Z :=
  foldl Z.max (started_at first) (started_at <$> rest).

(** [Model.objects.get(pk=ref) if ref else None]: [None] and [0] are both
    falsy. *)
Definition get_if_truthy (table : gmap Z RefRow) (ref : option Z)
  : M (option RefRow) :=
  match ref with
  | None => ret None
  | Some pk =>
      if decide (pk = 0) then ret None
      else (r <- objects_get table pk ;; ret (Some r))
  end.

(** [ActivationViewSet._get_activation_dependent_objects]. *)
Definition _get_activation_dependent_objects (activation : Activation)
  : M ActivationDeps :=
  d <- get_db ;;
  project <- get_if_truthy (projects d) (project_id activation) ;;
  decision_environment <-
    get_if_truthy (decision_environments d)
      (decision_environment_id activation) ;;
  rulebook <- get_if_truthy (rulebooks d) (rulebook_id activation) ;;
  extra_var <- get_if_truthy (extra_vars d) (extra_var_id activation) ;;
  let activation_instances := instances_of d (id activation) in
  ret {| dep_activation := activation;
         dep_project := project;
         dep_decision_environment := decision_environment;
         dep_rulebook := rulebook;
         dep_extra_var := extra_var;
         dep_instances := activation_instances;
         dep_restarted_at :=
           match activation_instances with
           | [] => None
           | first :: rest => Some (latest_started_at first rest)
           end |}.

Section ViewSet.

(** [django.conf.settings]. *)
Variable settings : Settings.

(** The request payload and the acting user, as the framework hands
    them over. *)
Variable RequestData : Type.
Variable User : Type.

(** The validated data of [ActivationCreateSerializer] and the id fields
    the conflict resolver reads from it. *)
Variable ValidatedData : Type.
Variable id_fields : ValidatedData -> gmap string (option Z).

(** [serializer.is_valid(raise_exception=True)]: the validated data, or
    nothing when validation fails. *)
Variable is_valid : RequestData -> option ValidatedData.

(** The row [ActivationCreateSerializer.create] inserts for the validated
    data and the user on the given tables, or nothing when the insert
    raises [IntegrityError]. *)
Variable serializer_row : ValidatedData -> User -> DB -> option Activation.

(** [serializer.create(validated_data, user)] inside the [try]: [None]
    stands for the [IntegrityError] caught by the [except] clause. *)
Definition serializer_create (validated_data : ValidatedData) (user : User)
  : M (option Activation) :=
  fun w =>
    match serializer_row validated_data user (db w) with
    | None => (Ok None, w)
    | Some row =>
        (Ok (Some row),
         {| db := set_activations (<[id row := row]> (activations (db w)))
                    (db w);
            now := now w; next_job := next_job w;
            events := events w ++ [EvInsert (id row)] |})
    end.

Definition activate_job (activation_id : Z) : Job :=
  activate_rulesets false activation_id (DEPLOYMENT_TYPE settings)
    (WEBSOCKET_BASE_URL settings) (WEBSOCKET_SSL_VERIFY settings).

(** [ActivationViewSet.create]. *)
Definition create (request_data : RequestData) (request_user : User)
  : M Response :=
  match is_valid request_data with
  | None => raise ValidationError
  | Some validated_data =>
      created <- serializer_create validated_data request_user ;;
      response <-
        match created with
        | Some response => ret response
        | None => handle_activation_create_conflict (id_fields validated_data)
        end ;;
      activation <- _get_activation_dependent_objects response ;;
      let activation :=
        {| deps := activation; rules_count := 0; rules_fired_count := 0 |} in
      (if is_enabled response
       then (_ <- delay (activate_job (id response)) ;; ret tt)
       else ret tt) ;;;
      ret {| data := Some activation; status_code := HTTP_201_CREATED |}
  end.

(** [ActivationViewSet.retrieve]; [super().retrieve] answers 404 when no
    row has the key. *)
Definition retrieve (pk : Z) : M Response :=
  response <- get_object_or_404 pk ;;
  activation <- _get_activation_dependent_objects response ;;
  let '(rules_count, rules_fired_count) :=
    _get_rules_count (ruleset_stats (dep_activation activation)) in
  ret {| data := Some {| deps := activation;
                         rules_count := rules_count;
                         rules_fired_count := rules_fired_count |};
         status_code := HTTP_200_OK |}.

(** [ActivationViewSet.perform_destroy]. *)
Definition perform_destroy (activation : Activation) : M unit :=
  d <- get_db ;;
  let instances := instances_of d (id activation) in
  for_each instances
    (fun instance =>
       _ <- delay (deactivate_rulesets (inst_id instance)
                     (DEPLOYMENT_TYPE settings)) ;;
       ret tt) ;;;
  model_delete activation.

(** The framework's [destroy], which a Delete request reaches: it looks
    the row up, calls [perform_destroy] and answers 204. *)
Definition destroy (pk : Z) : M Response :=
  instance <- get_object_or_404 pk ;;
  perform_destroy instance ;;;
  ret {| data := None; status_code := HTTP_204_NO_CONTENT |}.

(** The statuses [enable] refuses. *)
Definition enable_busy_statuses : list ActivationStatus :=
  [STARTING; STOPPING; PENDING; RUNNING; UNRESPONSIVE].

(** [ActivationViewSet.enable]. *)
Definition enable (pk : Z) : M Response :=
  activation <- get_object_or_404 pk ;;
  if is_enabled activation
  then ret {| data := None; status_code := HTTP_204_NO_CONTENT |}
  else if bool_decide (status activation ∈ enable_busy_statuses)
  then ret {| data := None; status_code := HTTP_409_CONFLICT |}
  else
    let activation := set_is_enabled true activation in
    let activation := set_failure_count 0 activation in
    let activation := set_status PENDING activation in
    activation <-
      save ["is_enabled"; "failure_count"; "status"; "modified_at"]
        activation ;;
    job <- delay (activate_job pk) ;;
    let activation := set_current_job_id (Some job) activation in
    _ <- save ["current_job_id"] activation ;;
    ret {| data := None; status_code := HTTP_204_NO_CONTENT |}.

(** [ActivationViewSet.disable]. *)
Definition disable (pk : Z) : M Response :=
  activation <- get_object_or_404 pk ;;
  (if is_enabled activation
   then
     let activation := set_status STOPPING activation in
     let activation := set_is_enabled false activation in
     activation <-
       save ["is_enabled"; "status"; "modified_at"] activation ;;
     _ <- delay (deactivate (id activation)) ;;
     ret tt
   else ret tt) ;;;
  ret {| data := None; status_code := HTTP_204_NO_CONTENT |}.

(** [ActivationViewSet.restart]. *)
Definition restart (pk : Z) : M Response :=
  activation <- get_object_or_404 pk ;;
  if negb (is_enabled activation)
  then raise (HttpForbidden "Activation is disabled and cannot be run.")
  else
    d <- get_db ;;
    let instance_running := head (running_instances_of d pk) in
    match instance_running with
    | Some instance_running =>
        _ <- delay (deactivate_rulesets (inst_id instance_running)
                      (DEPLOYMENT_TYPE settings)) ;;
        ret tt
    | None => ret tt
    end ;;;
    _ <- delay (activate_job pk) ;;
    let activation :=
      set_restart_count (restart_count activation + 1) activation in
    _ <- save ["restart_count"; "modified_at"] activation ;;
    ret {| data := None; status_code := HTTP_204_NO_CONTENT |}.

End ViewSet.

(** ** Vocabulary of the specification *)

(** A reference that is absent or points at an existing row. *)
Definition ref_present (table : gmap Z RefRow) (ref : option Z) : Prop :=
  ∀ pk, ref = Some pk → is_Some (table !! pk).

(** A reference [pk] that points at no row. *)
Definition ref_missing (table : gmap Z RefRow) (ref : option Z) (pk : Z)
  : Prop :=
  ref = Some pk ∧ table !! pk = None.

(** The sum of a counter over all entries of [ruleset_stats], as the
    specification words it. *)
Definition stats_sum (counter : RulesetStat -> Z)
    (ruleset_stats : gmap string RulesetStat) : Z :=
  map_fold (fun _ ruleset_stat acc => counter ruleset_stat + acc) 0
    ruleset_stats.

(** The references of a row that the enrichment looks up all resolve:
    each is [None], falsy, or the key of a row. *)
Definition resolvable (table : gmap Z RefRow) (ref : option Z) : Prop :=
  ∀ pk, ref = Some pk → pk ≠ 0 → is_Some (table !! pk).

Definition refs_resolvable (d : DB) (a : Activation) : Prop :=
  resolvable (projects d) (project_id a)
  ∧ resolvable (decision_environments d) (decision_environment_id a)
  ∧ resolvable (rulebooks d) (rulebook_id a)
  ∧ resolvable (extra_vars d) (extra_var_id a).

(** The events a run appended to the trace. *)
Definition appended (w w' : World) (new : list Event) : Prop :=
  events w' = events w ++ new.

(** What a completed enable transition looks like from outside: a 204, the
    row enabled, its failures forgotten, PENDING, with the job handle, and
    one "activate" job, not a restart, as the only dispatch. *)
Definition enable_transition (settings : Settings) (pk : Z) (w : World)
  : Prop :=
  ∃ resp w' new a' job,
    enable settings pk w = (Ok resp, w')
    ∧ appended w w' new
    ∧ status_code resp = 204
    ∧ activations (db w') !! pk = Some a'
    ∧ is_enabled a' = true
    ∧ failure_count a' = 0
    ∧ status a' = PENDING
    ∧ current_job_id a' = Some job
    ∧ dispatched new = [activate_job settings pk].

(** The instance a job is aimed at, for the jobs that are aimed at one. *)
Definition targets_instance (instance_pk : Z) (j : Job) : bool :=
  match j with
  | deactivate_rulesets activation_instance_id _ =>
      bool_decide (activation_instance_id = instance_pk)
  | _ => false
  end.

(** The "deactivate" jobs among the dispatches of a trace. *)
Definition deactivations (es : list Event) : list Job :=
  filter (fun j => is_deactivate j = true) (dispatched es).

(** Disable as worded: the run answers and dispatches one "deactivate" job
    per running instance of the Activation. *)
Definition disable_one_per_running_instance (pk : Z) (w : World) : Prop :=
  ∃ resp w' new,
    disable pk w = (Ok resp, w')
    ∧ appended w w' new
    ∧ length (deactivations new) = length (running_instances_of (db w) pk).

(** Delete as worded: the run answers and dispatches as many "deactivate"
    jobs as the Activation has RUNNING instances. *)
Definition destroy_one_per_running_instance (settings : Settings) (pk : Z)
    (w : World) : Prop :=
  ∃ resp w' new,
    destroy settings pk w = (Ok resp, w')
    ∧ appended w w' new
    ∧ length (deactivations new) = length (running_instances_of (db w) pk).

(** What [restart] dispatches ahead of the "activate" job. *)
Definition restart_deactivations (settings : Settings) (d : DB) (pk : Z)
  : list Event :=
  match head (running_instances_of d pk) with
  | Some instance_running =>
      [EvDispatch (deactivate_rulesets (inst_id instance_running)
                     (DEPLOYMENT_TYPE settings))]
  | None => []
  end.

(** ** Sample data *)

Definition sample_activation (pk : Z) (enabled : bool)
    (st : ActivationStatus) : Activation :=
  {| id := pk; name := "demo"; is_enabled := enabled; status := st;
     failure_count := 3; restart_count := 1; current_job_id := None;
     project_id := Some 7; rulebook_id := None;
     decision_environment_id := None; extra_var_id := None;
     ruleset_stats :=
       {[ "ruleset one" := {| numberOfRules := 2; rulesTriggered := 5 |};
          "ruleset two" := {| numberOfRules := 4; rulesTriggered := 1 |} ]};
     modified_at := 0 |}.

Definition sample_instance (pk activation_pk : Z) (st : ActivationStatus)
  : ActivationInstance :=
  {| inst_id := pk; inst_activation_id := activation_pk; inst_status := st;
     started_at := 100 + pk |}.

(** Activation 1 is disabled and stopped, 2 is enabled and running with two
    running instances and a stopped one, 3 is disabled while its status
    still says running, 4 is enabled with no instance at all. *)
Definition sample_db : DB :=
  {| activations :=
       list_to_map
         [ (1, sample_activation 1 false STOPPED);
           (2, sample_activation 2 true RUNNING);
           (3, sample_activation 3 false RUNNING);
           (4, sample_activation 4 true FAILED) ];
     instances :=
       [ sample_instance 10 2 STOPPED;
         sample_instance 11 2 RUNNING;
         sample_instance 12 1 STOPPED;
         sample_instance 13 2 RUNNING ];
     projects := {[ 7 := {| ref_pk := 7; ref_name := "rules" |} ]};
     rulebooks := {[ 3 := {| ref_pk := 3; ref_name := "book" |} ]};
     decision_environments := ∅;
     extra_vars := ∅ |}.

Definition sample_world : World :=
  {| db := sample_db; now := 1000; next_job := 40; events := [] |}.

(** A sample create serializer for the runs below: the validated data are
    the id fields and the [is_enabled] flag; the insert takes key 5 and
    fails when a given id has no row. *)
Definition sample_is_valid (request_data : gmap string (option Z) * bool)
  : option (gmap string (option Z) * bool) :=
  Some request_data.

Definition sample_serializer_row
    (validated_data : gmap string (option Z) * bool) (user : string) (d : DB)
  : option Activation :=
  let ref table key :=
    match dict_get validated_data.1 key with
    | Some pk => pk_exists table pk
    | None => true
    end in
  if ref (decision_environments d) "decision_environment_id"
     && ref (projects d) "project_id"
     && ref (rulebooks d) "rulebook_id"
     && ref (extra_vars d) "extra_var_id"
  then
    Some {| id := 5; name := "created by " +:+ user;
            is_enabled := validated_data.2; status := PENDING;
            failure_count := 0; restart_count := 0; current_job_id := None;
            project_id := dict_get validated_data.1 "project_id";
            rulebook_id := dict_get validated_data.1 "rulebook_id";
            decision_environment_id :=
              dict_get validated_data.1 "decision_environment_id";
            extra_var_id := dict_get validated_data.1 "extra_var_id";
            ruleset_stats := ∅; modified_at := 0 |}
  else None.

Definition sample_create (request_data : gmap string (option Z) * bool)
  : M Response :=
  create default_settings (gmap string (option Z) * bool) string
    (gmap string (option Z) * bool) fst sample_is_valid sample_serializer_row
    request_data "admin".

(** A payload that names project 7 and rulebook 3, both stored. *)
Definition sample_payload (enabled : bool)
  : gmap string (option Z) * bool :=
  ({[ "project_id" := Some 7; "rulebook_id" := Some 3;
      "extra_var_id" := None ]}, enabled).

(** A payload whose rulebook 99 is not stored. *)
Definition sample_payload_no_rulebook : gmap string (option Z) * bool :=
  ({[ "project_id" := Some 7; "rulebook_id" := Some 99 ]}, true).

(** ** Vocabulary for the frame and composition properties *)

(** Every Activation row is stored under its own primary key. *)
Definition keys_are_ids (d : DB) : Prop :=
  map_Forall (fun k a => id a = k) (activations d).

(** From [w] to [w'] nothing but the Activation row under [key] may have
    changed: the other rows, the set of stored keys, the instance rows,
    the referenced tables and the clock are the same; the trace has only
    grown, and the handle counter has advanced by one per dispatch. *)
Definition touches_only (key : Z) (w w' : World) : Prop :=
  instances (db w') = instances (db w)
  ∧ projects (db w') = projects (db w)
  ∧ rulebooks (db w') = rulebooks (db w)
  ∧ decision_environments (db w') = decision_environments (db w)
  ∧ extra_vars (db w') = extra_vars (db w)
  ∧ now w' = now w
  ∧ (∀ k, k ≠ key → activations (db w') !! k = activations (db w) !! k)
  ∧ (∀ k, is_Some (activations (db w') !! k)
          ↔ is_Some (activations (db w) !! k))
  ∧ ∃ new,
      appended w w' new
      ∧ next_job w' = next_job w + Z.of_nat (length (dispatched new)).

(** [n] Restart requests for the same Activation, one after the other. *)
Fixpoint restart_times (settings : Settings) (pk : Z) (n : nat) : M unit :=
  match n with
  | O => ret tt
  | S n' => _ <- restart settings pk ;; restart_times settings pk n'
  end.

(** The events of one Restart request on an enabled Activation. *)
Definition restart_block (settings : Settings) (d : DB) (pk : Z)
  : list Event :=
  restart_deactivations settings d pk
  ++ [EvDispatch (activate_job settings pk);
      EvSave pk ["restart_count"; "modified_at"]].


(** A handler keeps a property of the world, whatever its outcome. *)
Definition preserves {A} (P : World -> Prop) (m : M A) : Prop :=
  ∀ w, P w → P (snd (m w)).


(** The object a reference stands for in an enriched record: none for a
    reference that is [None] or falsy, else the row stored under it. *)
Definition lookup_truthy (table : gmap Z RefRow) (ref : option Z)
  : option RefRow :=
  match ref with
  | None => None
  | Some pk => if decide (pk = 0) then None else table !! pk
  end.


(** ** The sub-resource listings *)

(** Modelled from the spec: a row of [models.ActivationInstanceLog] (the
    models are not part of the sources at hand): a log line owned by one
    instance. *)
Record ActivationInstanceLog := {
  log_id : Z;
  log_activation_instance_id : Z;
  log_text : string;
}.

(** The order of [order_by("id")]. *)
Definition log_le (a b : ActivationInstanceLog) : Prop :=
  (log_id a ≤ log_id b)%Z.

#[global] Instance log_le_dec : RelDecision log_le.
Proof. intros a b. unfold log_le. apply _. Defined.

(** [queryset.order_by("id")] on log rows. *)
Definition order_by_id (rows : list ActivationInstanceLog)
  : list ActivationInstanceLog :=
  merge_sort log_le rows.

(** An entry of the Activation listing: the serialized row with its two
    counters. *)
Record ActivationListEntry := {
  entry_activation : Activation;
  entry_rules_count : Z;
  entry_rules_fired_count : Z;
}.

Section Listings.

(** [self.filter_queryset] with the filter set of the action and the query
    parameters of the request, and [self.paginate_queryset]; both belong
    to the framework and to modules that are not part of the sources at
    hand. *)
Variable filter_instances :
  list ActivationInstance -> list ActivationInstance.
Variable paginate_instances :
  list ActivationInstance -> list ActivationInstance.
Variable filter_logs :
  list ActivationInstanceLog -> list ActivationInstanceLog.
Variable paginate_logs :
  list ActivationInstanceLog -> list ActivationInstanceLog.

(** [ActivationViewSet.instances]; the result is the page of rows the
    paginated response carries. *)
Definition ActivationViewSet_instances (id : Z)
  : M (list ActivationInstance) :=
  d <- get_db ;;
  let activation_exists := bool_decide (is_Some (activations d !! id)) in
  if negb activation_exists
  then raise (NotFound ("Activation with ID=" +:+ PyStr.str id
                          +:+ " does not exist."))
  else
    let activation_instances := instances_of d id in
    let filtered_instances := filter_instances activation_instances in
    let result := paginate_instances filtered_instances in
    ret result.

(** [ActivationInstanceViewSet.logs] over the stored log rows, which the
    handler only reads. *)
Definition ActivationInstanceViewSet_logs
    (log_rows : list ActivationInstanceLog) (id : Z)
  : M (list ActivationInstanceLog) :=
  d <- get_db ;;
  let instance_exists :=
    bool_decide (Exists (fun i => inst_id i = id) (instances d)) in
  if negb instance_exists
  then raise (NotFound ("Activation Instance with ID=" +:+ PyStr.str id
                          +:+ " does not exist."))
  else
    let activation_instance_logs :=
      order_by_id
        (filter (fun l => log_activation_instance_id l = id) log_rows) in
    let activation_instance_logs := filter_logs activation_instance_logs in
    let results := paginate_logs activation_instance_logs in
    ret results.

(** [monitor_activations] of [aap_eda.tasks.ruleset] and the page of rows
    [super().list] serializes from the tables; neither is part of the
    sources at hand. *)
Variable monitor_activations : M unit.
Variable list_page : DB -> list Activation.

(** [ActivationViewSet.list]; the paginated response of [super().list]
    is an object with data, so its results are always taken. *)
Definition ActivationViewSet_list : M (list ActivationListEntry) :=
  monitor_activations ;;;
  d <- get_db ;;
  let activations := list_page d in
  ret ((fun activation =>
          let '(rules_count, rules_fired_count) :=
            _get_rules_count (ruleset_stats activation) in
          {| entry_activation := activation;
             entry_rules_count := rules_count;
             entry_rules_fired_count := rules_fired_count |})
       <$> activations).

End Listings.

(** Log rows for the runs below. *)
Definition sample_log (pk instance_pk : Z) : ActivationInstanceLog :=
  {| log_id := pk; log_activation_instance_id := instance_pk;
     log_text := "line" |}.

Definition sample_logs : list ActivationInstanceLog :=
  [ sample_log 30 11; sample_log 7 11; sample_log 19 13; sample_log 8 11;
    sample_log 2 13 ].


(** ** The settings module *)

(** More of Python's [str], on the characters of ASCII. *)
Module PyStrOps.

(** [c.isspace()]: tab to carriage return, the four separators and the
    space. *)
Definition is_space (c : Ascii.ascii) : bool :=
  let n := Ascii.nat_of_ascii c in
  (((9 <=? n) && (n <=? 13)) || ((28 <=? n) && (n <=? 32)))%nat.

Definition is_char (d c : Ascii.ascii) : bool := bool_decide (c = d).

Fixpoint lstrip_by (p : Ascii.ascii -> bool) (s : string) : string :=
  match s with
  | EmptyString => EmptyString
  | String c r => if p c then lstrip_by p r else s
  end.

Fixpoint rstrip_by (p : Ascii.ascii -> bool) (s : string) : string :=
  match s with
  | EmptyString => EmptyString
  | String c r =>
      match rstrip_by p r with
      | EmptyString => if p c then EmptyString else String c EmptyString
      | kept => String c kept
      end
  end.

(** [s.strip()] and [s.strip(chars)] for the characters [p] accepts. *)
Definition strip_by (p : Ascii.ascii -> bool) (s : string) : string :=
  rstrip_by p (lstrip_by p s).

Definition strip (s : string) : string := strip_by is_space s.

(** [s.split(sep)] for a separator of one character. *)
Fixpoint split (sep : Ascii.ascii) (s : string) : list string :=
  match s with
  | EmptyString => [EmptyString]
  | String c r =>
      if bool_decide (c = sep) then EmptyString :: split sep r
      else match split sep r with
           | piece :: pieces => String c piece :: pieces
           | [] => [String c EmptyString]
           end
  end.

(** [sep.join(pieces)]. *)
Fixpoint join (sep : string) (pieces : list string) : string :=
  match pieces with
  | [] => EmptyString
  | [piece] => piece
  | piece :: rest => piece +:+ sep +:+ join sep rest
  end.

(** Truth value of a setting that is a [str] or [None]. *)
Definition truthy (v : option string) : bool :=
  match v with
  | None => false
  | Some EmptyString => false
  | Some (String _ _) => true
  end.

Fixpoint all_chars (p : Ascii.ascii -> bool) (s : string) : bool :=
  match s with
  | EmptyString => true
  | String c r => p c && all_chars p r
  end.

Definition first_char (s : string) : option Ascii.ascii :=
  match s with
  | EmptyString => None
  | String c _ => Some c
  end.

Fixpoint last_char (s : string) : option Ascii.ascii :=
  match s with
  | EmptyString => None
  | String c EmptyString => Some c
  | String _ r => last_char r
  end.

Fixpoint count_char (d : Ascii.ascii) (s : string) : nat :=
  match s with
  | EmptyString => O
  | String c r => (if bool_decide (c = d) then 1 else 0) + count_char d r
  end.

End PyStrOps.

Module DefaultSettings.

(** What loading the settings module can raise. *)
Inductive SettingsError :=
| ImproperlyConfigured (msg : string)
| OSError (path : string).

Inductive Loaded (A : Type) :=
| Value (a : A)
| Failed (e : SettingsError).
Arguments Value {A} a.
Arguments Failed {A} e.

(** The double quote, the comma and the slash. *)
Definition dq : string := String (Ascii.ascii_of_nat 34) EmptyString.
Definition comma : Ascii.ascii := Ascii.ascii_of_nat 44.
Definition slash : Ascii.ascii := Ascii.ascii_of_nat 47.

Definition mutually_exclusive_msg : string :=
  "Settings parameters " +:+ dq +:+ "SECRET_KEY" +:+ dq +:+ " and "
  +:+ dq +:+ "SECRET_KEY_FILE" +:+ dq +:+ " are mutually exclusive.".

Definition must_be_set_msg : string :=
  "Either " +:+ dq +:+ "SECRET_KEY" +:+ dq +:+ " or " +:+ dq
  +:+ "SECRET_KEY_FILE" +:+ dq +:+ " settings parameters must be set.".

(** [_get_secret_key], given what [settings.get] returns for the two
    parameters and the text files that can be opened. *)
Definition _get_secret_key (secret_key secret_key_file : option string)
    (files : gmap string string) : Loaded string :=
  if PyStrOps.truthy secret_key && PyStrOps.truthy secret_key_file
  then Failed (ImproperlyConfigured mutually_exclusive_msg)
  else if PyStrOps.truthy secret_key
  then Value (default EmptyString secret_key)
  else if PyStrOps.truthy secret_key_file
  then
    let path := default EmptyString secret_key_file in
    match files !! path with
    | Some content => Value (PyStrOps.strip content)
    | None => Failed (OSError path)
    end
  else Failed (ImproperlyConfigured must_be_set_msg).

(** A value of the [ALLOWED_HOSTS] parameter: a string or a list. *)
Inductive HostsSetting :=
| HostsStr (s : string)
| HostsList (l : list string).

(** [ALLOWED_HOSTS]. *)
Definition ALLOWED_HOSTS (setting : option HostsSetting) : list string :=
  match default (HostsList []) setting with
  | HostsStr s => PyStrOps.split comma s
  | HostsList l => l
  end.

(** [API_PREFIX] and the two paths built from it. *)
Definition API_PREFIX (setting : option string) : string :=
  PyStrOps.strip_by (PyStrOps.is_char slash) (default "api/eda" setting).

Definition SCHEMA_PATH_PREFIX (setting : option string) : string :=
  "/" +:+ API_PREFIX setting +:+ "/v[0-9]".

Definition SERVERS_url (setting : option string) : string :=
  "/" +:+ API_PREFIX setting +:+ "/v1".

(** A value in a queue configuration. *)
Inductive ConfigValue :=
| CStr (s : string)
| CInt (n : Z).

(** The message queue parameters as [settings.get] finds them. *)
Record MQSettings := {
  MQ_UNIX_SOCKET_PATH : option string;
  MQ_HOST : option string;
  MQ_PORT : option Z;
  MQ_DB : option Z;
}.

(** [RQ_QUEUES] once the module is loaded. *)
Definition RQ_QUEUES (s : MQSettings)
  : gmap string (gmap string ConfigValue) :=
  let queues : gmap string (gmap string ConfigValue) :=
    if PyStrOps.truthy (MQ_UNIX_SOCKET_PATH s)
    then
      let path := default EmptyString (MQ_UNIX_SOCKET_PATH s) in
      {[ "default" := {[ "UNIX_SOCKET_PATH" := CStr path ]};
         "activation" := {[ "UNIX_SOCKET_PATH" := CStr path ]} ]}
    else
      {[ "default" :=
           {[ "HOST" := CStr (default "localhost" (MQ_HOST s));
              "PORT" := CInt (default 6379 (MQ_PORT s));
              "DEFAULT_TIMEOUT" := CInt (-1) ]};
         "activation" :=
           {[ "HOST" := CStr (default "localhost" (MQ_HOST s));
              "PORT" := CInt (default 6379 (MQ_PORT s));
              "DEFAULT_TIMEOUT" := CInt (-1) ]} ]} in
  let queues :=
    alter (insert "DB" (CInt (default 0 (MQ_DB s)))) "default" queues in
  alter (insert "DB" (CInt (default 0 (MQ_DB s)))) "activation" queues.

End DefaultSettings.


(** A run from [w] dispatched "activate" jobs only for the Activation
    [pk], with the parameters of the settings, and only if the row is
    enabled in the world the run ends in. *)
Definition activates_only_enabled (settings : Settings) (pk : Z) (w : World)
    {A} (run : Result A * World) : Prop :=
  ∀ new, appended w run.2 new →
    ∀ j, j ∈ dispatched new → is_activate j = true →
      j = activate_job settings pk
      ∧ ∃ a', activations (db run.2) !! pk = Some a' ∧ is_enabled a' = true.


(** * Theorems *)

(** ** The conflict resolver *)

Lemma pk_exists_true table pk :
  pk_exists table pk = true ↔ is_Some (table !! pk).
Proof. unfold pk_exists. apply bool_decide_eq_true. Qed.

Lemma pk_exists_false table pk :
  pk_exists table pk = false ↔ table !! pk = None.
Proof.
  unfold pk_exists. rewrite bool_decide_eq_false.
  rewrite <- eq_None_not_Some. reflexivity.
Qed.

(** One step of the loop on an entry that is absent or exists. *)
Lemma conflict_loop_skip table object_name ref rest :
  ref_present table ref →
  conflict_loop ((table, object_name, ref) :: rest) = conflict_loop rest.
Proof.
  intros Hp. destruct ref as [pk|]; simpl; [|reflexivity].
  destruct (pk_exists table pk) eqn:E; [reflexivity|].
  apply pk_exists_false in E. destruct (Hp pk eq_refl) as [r Hr]. congruence.
Qed.

(** One step of the loop on an entry whose row is missing. *)
Lemma conflict_loop_hit table object_name ref pk rest :
  ref_missing table ref pk →
  conflict_loop ((table, object_name, ref) :: rest)
  = Unprocessable (does_not_exist_detail object_name pk).
Proof.
  intros [-> Hn]. simpl.
  apply pk_exists_false in Hn. rewrite Hn. reflexivity.
Qed.

(** The loop ends in an [Unprocessable] whatever the entries are. *)
Lemma conflict_loop_unprocessable objs :
  ∃ detail, conflict_loop objs = Unprocessable detail.
Proof.
  induction objs as [|[[table object_name] [pk|]] rest IH]; simpl.
  - eauto.
  - destruct (pk_exists table pk); simpl; eauto.
  - exact IH.
Qed.

(** The resolver raises what its loop computes and touches nothing. *)
Lemma handle_activation_create_conflict_raises A activation w :
  ∃ detail,
    conflict_loop (activation_dependent_objects (db w) activation)
    = Unprocessable detail
    ∧ handle_activation_create_conflict (A := A) activation w
      = (Raise (Unprocessable detail), w).
Proof.
  destruct (conflict_loop_unprocessable
              (activation_dependent_objects (db w) activation))
    as [detail E].
  exists detail. split; [exact E|].
  unfold handle_activation_create_conflict, bind, get_db, raise.
  rewrite E. reflexivity.
Qed.

(** C8.  The conflict resolver always raises [Unprocessable], leaving the
    world as it found it.  It examines decision_environment, project,
    rulebook, extra_var in this order: the detail names the first of them
    whose id is given and has no row, with the capitalised entity name and
    that id, and is "Integrity error." when every given id has a row. *)
Theorem handle_activation_create_conflict_first_missing :
  ∀ (A : Type) (activation : gmap string (option Z)) (w : World),
    let de := dict_get activation "decision_environment_id" in
    let pr := dict_get activation "project_id" in
    let rb := dict_get activation "rulebook_id" in
    let ev := dict_get activation "extra_var_id" in
    let d := db w in
    ∃ detail,
      handle_activation_create_conflict (A := A) activation w
      = (Raise (Unprocessable detail), w)
      ∧ (∀ pk, ref_missing (decision_environments d) de pk →
           detail = "Decision_environment with ID=" +:+ PyStr.str pk
                      +:+ " does not exist.")
      ∧ (∀ pk, ref_present (decision_environments d) de →
           ref_missing (projects d) pr pk →
           detail = "Project with ID=" +:+ PyStr.str pk
                      +:+ " does not exist.")
      ∧ (∀ pk, ref_present (decision_environments d) de →
           ref_present (projects d) pr →
           ref_missing (rulebooks d) rb pk →
           detail = "Rulebook with ID=" +:+ PyStr.str pk
                      +:+ " does not exist.")
      ∧ (∀ pk, ref_present (decision_environments d) de →
           ref_present (projects d) pr →
           ref_present (rulebooks d) rb →
           ref_missing (extra_vars d) ev pk →
           detail = "Extra_var with ID=" +:+ PyStr.str pk
                      +:+ " does not exist.")
      ∧ (ref_present (decision_environments d) de →
         ref_present (projects d) pr →
         ref_present (rulebooks d) rb →
         ref_present (extra_vars d) ev →
         detail = "Integrity error.").
Proof.
  intros A activation w de pr rb ev d.
  destruct (handle_activation_create_conflict_raises A activation w)
    as (detail & E & Hrun).
  exists detail. split; [exact Hrun|]. fold d in E.
  unfold activation_dependent_objects in E. fold de pr rb ev in E.
  repeat split.
  - intros pk H. rewrite (conflict_loop_hit _ _ _ pk _ H) in E.
    injection E as <-. reflexivity.
  - intros pk H1 H. rewrite conflict_loop_skip in E by assumption.
    rewrite (conflict_loop_hit _ _ _ pk _ H) in E.
    injection E as <-. reflexivity.
  - intros pk H1 H2 H. rewrite !conflict_loop_skip in E by assumption.
    rewrite (conflict_loop_hit _ _ _ pk _ H) in E.
    injection E as <-. reflexivity.
  - intros pk H1 H2 H3 H. rewrite !conflict_loop_skip in E by assumption.
    rewrite (conflict_loop_hit _ _ _ pk _ H) in E.
    injection E as <-. reflexivity.
  - intros H1 H2 H3 H4. rewrite !conflict_loop_skip in E by assumption.
    simpl in E. injection E as <-. reflexivity.
Qed.

(** ** Enrichment of a read *)

Lemma get_if_truthy_inv table ref w r w' :
  get_if_truthy table ref w = (r, w') →
  w' = w ∧ (resolvable table ref → ∃ o, r = Ok o).
Proof.
  unfold get_if_truthy, objects_get, bind, ret, raise.
  destruct ref as [pk|].
  - destruct (decide (pk = 0)) as [->|Hne].
    + intros [= <- <-]. eauto.
    + destruct (table !! pk) as [row|] eqn:E; simpl; intros [= <- <-].
      * eauto.
      * split; [reflexivity|]. intros Hr.
        destruct (Hr pk eq_refl Hne) as [x Hx]. congruence.
  - intros [= <- <-]. eauto.
Qed.

(** The enrichment reads only: the world is unchanged, and the result, when
    there is one, carries the row it was given and the instance rows of
    that Activation. *)
Lemma _get_activation_dependent_objects_inv a w r w' :
  _get_activation_dependent_objects a w = (r, w') →
  w' = w
  ∧ (∀ ds, r = Ok ds →
       dep_activation ds = a ∧ dep_instances ds = instances_of (db w) (id a))
  ∧ (refs_resolvable (db w) a → ∃ ds, r = Ok ds).
Proof.
  unfold _get_activation_dependent_objects, bind at 1, get_db.
  unfold refs_resolvable. intros H. revert H.
  repeat
    (unfold bind at 1; cbv beta;
     match goal with
     | |- context [get_if_truthy ?t ?x w] =>
         let E := fresh "E" in
         let Hw := fresh "Hw" in
         let Hr := fresh "Hr" in
         destruct (get_if_truthy t x w) as [[?|?] w1] eqn:E;
         apply get_if_truthy_inv in E; destruct E as [Hw Hr]; subst w1
     end;
     [| intros [= <- <-]; split; [reflexivity|]; split;
        [discriminate|]; intros (H1 & H2 & H3 & H4);
        match goal with
        | Hx : _ → ∃ o, Raise _ = Ok o |- _ =>
            destruct Hx as [? ?]; [assumption|discriminate]
        end ]).
  unfold ret. intros [= <- <-].
  split; [reflexivity|]. split; [|eauto].
  intros ds [= <-]. split; reflexivity.
Qed.

(** The loop of [_get_rules_count] from any pair of running totals. *)
Lemma rules_count_loop (l : list (string * RulesetStat)) (c f : Z) :
  foldl
    (fun '(rules_count, rules_fired_count) ruleset_stat =>
       (rules_count + numberOfRules ruleset_stat,
        rules_fired_count + rulesTriggered ruleset_stat))
    (c, f) (snd <$> l)
  = (c + foldr (uncurry (fun (_ : string) st acc => numberOfRules st + acc))
           0 l,
     f + foldr (uncurry (fun (_ : string) st acc => rulesTriggered st + acc))
           0 l).
Proof.
  revert c f. induction l as [|[k st] l IH]; intros c f; simpl.
  - f_equal; lia.
  - rewrite IH. f_equal; lia.
Qed.

Lemma _get_rules_count_sums (stats : gmap string RulesetStat) :
  _get_rules_count stats
  = (stats_sum numberOfRules stats, stats_sum rulesTriggered stats).
Proof.
  unfold _get_rules_count, stats_sum.
  rewrite rules_count_loop, !map_fold_foldr. reflexivity.
Qed.

Lemma stats_sum_empty counter : stats_sum counter ∅ = 0.
Proof. unfold stats_sum. apply map_fold_empty. Qed.

(** Adding an entry under a fresh ruleset name adds its counter. *)
Lemma stats_sum_insert counter (stats : gmap string RulesetStat) k st :
  stats !! k = None →
  stats_sum counter (<[k := st]> stats) = counter st + stats_sum counter stats.
Proof.
  intros Hk. unfold stats_sum.
  rewrite map_fold_insert_L; [reflexivity| |assumption].
  intros. lia.
Qed.

(** C9.  Whenever [retrieve] answers, it answers 200 for the stored row
    with [rules_count] the sum of [numberOfRules] and [rules_fired_count]
    the sum of [rulesTriggered] over all entries of the row's
    [ruleset_stats]; it does answer for every stored row whose references
    resolve; and both counts are 0 for an empty [ruleset_stats]. *)
Theorem retrieve_rules_count :
  ∀ (pk : Z) (w : World),
    (∀ resp w', retrieve pk w = (Ok resp, w') →
       ∃ a ar,
         activations (db w) !! pk = Some a
         ∧ data resp = Some ar
         ∧ status_code resp = 200
         ∧ dep_activation (deps ar) = a
         ∧ rules_count ar = stats_sum numberOfRules (ruleset_stats a)
         ∧ rules_fired_count ar = stats_sum rulesTriggered (ruleset_stats a))
    ∧ (∀ a, activations (db w) !! pk = Some a →
         refs_resolvable (db w) a →
         ∃ resp, retrieve pk w = (Ok resp, w))
    ∧ (∀ a, activations (db w) !! pk = Some a →
         ruleset_stats a = ∅ →
         ∀ resp w' ar, retrieve pk w = (Ok resp, w') →
           data resp = Some ar →
           rules_count ar = 0 ∧ rules_fired_count ar = 0)
    ∧ _get_rules_count ∅ = (0, 0).
Proof.
  intros pk w.
  assert (Hmain : ∀ resp w', retrieve pk w = (Ok resp, w') →
       ∃ a ar,
         activations (db w) !! pk = Some a
         ∧ data resp = Some ar
         ∧ status_code resp = 200
         ∧ dep_activation (deps ar) = a
         ∧ rules_count ar = stats_sum numberOfRules (ruleset_stats a)
         ∧ rules_fired_count ar = stats_sum rulesTriggered (ruleset_stats a)).
  { intros resp w'. unfold retrieve, get_object_or_404, bind at 1.
    unfold bind at 1, get_db.
    destruct (activations (db w) !! pk) as [a|] eqn:Ea;
      [|unfold raise; discriminate].
    unfold ret at 1. unfold bind.
    destruct (_get_activation_dependent_objects a w) as [[ds|e] w1] eqn:Ed;
      [|discriminate].
    apply _get_activation_dependent_objects_inv in Ed.
    destruct Ed as (-> & Hds & _). destruct (Hds ds eq_refl) as [Hda _].
    rewrite Hda, _get_rules_count_sums. unfold ret. intros [= <- <-].
    exists a. eexists. simpl. repeat split; assumption. }
  split; [exact Hmain|]. split; [|split].
  - intros a Ea Hres. unfold retrieve, get_object_or_404, bind at 1.
    unfold bind at 1, get_db. rewrite Ea. unfold ret at 1. unfold bind.
    destruct (_get_activation_dependent_objects a w) as [[ds|e] w1] eqn:Ed;
      apply _get_activation_dependent_objects_inv in Ed;
      destruct Ed as (-> & Hds & Htot).
    + destruct (_get_rules_count _) as [c f]. unfold ret. eauto.
    + destruct (Htot Hres) as [ds Hx]. discriminate.
  - intros a Ea Hempty resp w' ar Hr Hdata.
    destruct (Hmain resp w' Hr) as (a' & ar' & Ea' & Hd' & _ & _ & Hc & Hf).
    assert (a' = a) by congruence. subst a'.
    assert (ar' = ar) by congruence. subst ar'.
    rewrite Hc, Hf, Hempty, !stats_sum_empty. split; reflexivity.
  - reflexivity.
Qed.

(** ** Create *)

Lemma dispatched_app es1 es2 :
  dispatched (es1 ++ es2) = dispatched es1 ++ dispatched es2.
Proof. unfold dispatched. apply omap_app. Qed.

Section Create.

Context (settings : Settings) {RequestData User ValidatedData : Type}
  (id_fields : ValidatedData -> gmap string (option Z))
  (is_valid : RequestData -> option ValidatedData)
  (serializer_row : ValidatedData -> User -> DB -> option Activation).

Local Abbreviation create' :=
  (create settings RequestData User ValidatedData id_fields is_valid
     serializer_row).

(** C1.  Every run of [create] ends; what it appends to the trace holds
    an "activate" job exactly when it answers for a created row whose
    [is_enabled] is true, and then exactly that one job, not a restart,
    for the row's id.  An answer is a 201 that carries the created row
    with [rules_count = 0] and [rules_fired_count = 0]; a run that
    raises dispatches nothing.  [create] answers whenever the payload
    validates, the insert succeeds and the row's references resolve. *)
Theorem create_activate_iff_enabled :
  ∀ (request_data : RequestData) (request_user : User) (w : World),
  ∃ r w' new,
    create' request_data request_user w = (r, w')
    ∧ appended w w' new
    ∧ (∀ e, r = Raise e → dispatched new = [])
    ∧ (∀ resp, r = Ok resp →
         ∃ validated_data row ar,
           is_valid request_data = Some validated_data
           ∧ serializer_row validated_data request_user (db w) = Some row
           ∧ activations (db w') !! id row = Some row
           ∧ status_code resp = 201
           ∧ data resp = Some ar
           ∧ dep_activation (deps ar) = row
           ∧ rules_count ar = 0
           ∧ rules_fired_count ar = 0
           ∧ dispatched new
             = (if is_enabled row
                then [activate_rulesets false (id row)
                        (DEPLOYMENT_TYPE settings)
                        (WEBSOCKET_BASE_URL settings)
                        (WEBSOCKET_SSL_VERIFY settings)]
                else [])
           ∧ (is_enabled row = true
              ↔ ∃ j, j ∈ dispatched new ∧ is_activate j = true))
    ∧ (∀ validated_data row,
         is_valid request_data = Some validated_data →
         serializer_row validated_data request_user (db w) = Some row →
         refs_resolvable (db w) row →
         ∃ resp, r = Ok resp).
Proof.
  intros request_data request_user w. unfold create, appended.
  destruct (is_valid request_data) as [vd|] eqn:Ev.
  2:{ exists (Raise ValidationError), w, []. unfold raise.
      rewrite app_nil_r. repeat split; try discriminate. }
  unfold bind at 1, serializer_create.
  destruct (serializer_row vd request_user (db w)) as [row|] eqn:Es.
  2:{ destruct (handle_activation_create_conflict_raises Activation
                  (id_fields vd) w) as (detail & _ & Hc).
      unfold bind at 1. rewrite Hc.
      exists (Raise (Unprocessable detail)), w, [].
      rewrite app_nil_r. repeat split; try discriminate.
      intros validated_data row [= <-]. congruence. }
  unfold bind at 1, ret at 1. unfold bind at 1.
  match goal with
  | |- context [_get_activation_dependent_objects row ?w1] =>
      set (wi := w1);
      destruct (_get_activation_dependent_objects row wi)
        as [[ds|e] w2] eqn:Ed;
      apply _get_activation_dependent_objects_inv in Ed;
      destruct Ed as (-> & Hds & Htot)
  end.
  2:{ exists (Raise e), wi, [EvInsert (id row)].
      repeat split; try discriminate.
      intros validated_data row' [= <-] Hrow Hres.
      assert (row' = row) by congruence. subst row'.
      destruct (Htot Hres) as [ds Hx]. discriminate. }
  destruct (Hds ds eq_refl) as [Hda _].
  destruct (is_enabled row) eqn:Een.
  - eexists _, _, [EvInsert (id row);
                   EvDispatch (activate_job settings (id row))].
    unfold bind, delay, ret. simpl.
    split; [reflexivity|]. split; [rewrite <- app_assoc; reflexivity|].
    split; [discriminate|]. split; [|eauto].
    intros resp [= <-]. exists vd, row. eexists. simpl.
    rewrite Een.
    do 9 (split; [first [reflexivity | assumption
                        | apply lookup_insert_eq]|]).
    split; [|reflexivity].
    intros _. eexists. split; [apply list_elem_of_here|reflexivity].
  - eexists _, _, [EvInsert (id row)].
    unfold bind, ret. simpl.
    split; [reflexivity|]. split; [reflexivity|].
    split; [discriminate|]. split; [|eauto].
    intros resp [= <-]. exists vd, row. eexists. simpl.
    rewrite Een.
    do 9 (split; [first [reflexivity | assumption
                        | apply lookup_insert_eq]|]).
    split; [discriminate|].
    intros (j & Hj & _). inversion Hj.
Qed.

End Create.

(** ** Enable *)

Lemma save_stored update_fields mem row w :
  activations (db w) !! id mem = Some row →
  save update_fields mem w
  = (let mem' :=
       if bool_decide ("modified_at" ∈ update_fields)
       then set_modified_at (now w) mem else mem in
     (Ok mem',
      {| db := set_activations
                 (<[id mem := foldl (write_field mem') row update_fields]>
                    (activations (db w)))
                 (db w);
         now := now w; next_job := next_job w;
         events := events w ++ [EvSave (id mem) update_fields] |})).
Proof. intros H. unfold save. rewrite H. reflexivity. Qed.

Lemma write_field_is_enabled mem row :
  write_field mem row "is_enabled" = set_is_enabled (is_enabled mem) row.
Proof. reflexivity. Qed.

Lemma write_field_status mem row :
  write_field mem row "status" = set_status (status mem) row.
Proof. reflexivity. Qed.

Lemma write_field_failure_count mem row :
  write_field mem row "failure_count"
  = set_failure_count (failure_count mem) row.
Proof. reflexivity. Qed.

Lemma write_field_restart_count mem row :
  write_field mem row "restart_count"
  = set_restart_count (restart_count mem) row.
Proof. reflexivity. Qed.

Lemma write_field_current_job_id mem row :
  write_field mem row "current_job_id"
  = set_current_job_id (current_job_id mem) row.
Proof. reflexivity. Qed.

Lemma write_field_modified_at mem row :
  write_field mem row "modified_at" = set_modified_at (modified_at mem) row.
Proof. reflexivity. Qed.

Create Rewrite HintDb columns.
#[global] Hint Rewrite write_field_is_enabled write_field_status
  write_field_failure_count write_field_restart_count
  write_field_current_job_id write_field_modified_at : columns.

(** Runs a [save] on a row known to be stored and reduces the columns it
    writes. *)
Ltac run_save H :=
  try unfold bind at 1;
  erewrite save_stored by (cbn -[write_field]; apply H);
  match goal with
  | |- context [bool_decide (?x ∈ ?l)] =>
      let b := eval vm_compute in (bool_decide (x ∈ l)) in
      change (bool_decide (x ∈ l)) with b
  end;
  cbn -[write_field]; autorewrite with columns; cbn.

Lemma get_object_or_404_found pk a w :
  activations (db w) !! pk = Some a → get_object_or_404 pk w = (Ok a, w).
Proof.
  intros H. unfold get_object_or_404, bind, get_db, ret. rewrite H.
  reflexivity.
Qed.

(** C2.  On a row that is not enabled and whose status is STARTING,
    STOPPING, PENDING, RUNNING or UNRESPONSIVE, [enable] answers 409 and
    leaves the world as it found it: no row changes, nothing is written
    and nothing is dispatched. *)
Theorem enable_busy_conflict :
  ∀ (settings : Settings) (pk : Z) (w : World) (a : Activation),
    activations (db w) !! pk = Some a →
    is_enabled a = false →
    status a ∈ [STARTING; STOPPING; PENDING; RUNNING; UNRESPONSIVE] →
    ∃ resp w',
      enable settings pk w = (Ok resp, w')
      ∧ status_code resp = 409
      ∧ data resp = None
      ∧ db w' = db w
      ∧ activations (db w') !! pk = Some a
      ∧ events w' = events w
      ∧ appended w w' []
      ∧ w' = w.
Proof.
  intros settings pk w a Ha Hen Hst.
  exists {| data := None; status_code := HTTP_409_CONFLICT |}, w.
  unfold enable, bind at 1. rewrite (get_object_or_404_found _ _ _ Ha).
  rewrite Hen. fold enable_busy_statuses in Hst.
  rewrite (bool_decide_eq_true_2 _ Hst). unfold ret, appended.
  rewrite app_nil_r. repeat split; try reflexivity. exact Ha.
Qed.

(** Against C3 as worded: Activation 2 of the sample is already
    enabled, and [enable] answers 204 without touching it (its status
    stays RUNNING, its failure count 3) and without dispatching. *)
Lemma enable_already_enabled_no_transition :
  activations (db sample_world) !! 2 = Some (sample_activation 2 true RUNNING)
  ∧ is_enabled (sample_activation 2 true RUNNING) = true
  ∧ enable default_settings 2 sample_world
    = (Ok {| data := None; status_code := 204 |}, sample_world)
  ∧ ¬ enable_transition default_settings 2 sample_world.
Proof.
  assert (E : enable default_settings 2 sample_world
              = (Ok {| data := None; status_code := 204 |}, sample_world))
    by (vm_compute; reflexivity).
  split; [vm_compute; reflexivity|]. split; [reflexivity|].
  split; [exact E|].
  intros (resp & w' & new & a' & job & Hrun & _ & _ & Ha' & _ & Hfc & _).
  rewrite E in Hrun. injection Hrun as <- <-.
  vm_compute in Ha'. injection Ha' as <-. discriminate Hfc.
Qed.

(** C3, amended.  On a row that is not enabled and whose status is
    STOPPED, FAILED, COMPLETED or ERROR, [enable] answers 204 after it has
    written [is_enabled = true], [failure_count = 0] and
    [status = PENDING], dispatched exactly one "activate" job with
    [is_restart = false] for the row, and written the handle of that job to
    [current_job_id], in this order; no other row changes.  On a row that
    is already enabled it answers 204 and changes and dispatches
    nothing. *)
Theorem enable_idle_activates :
  ∀ (settings : Settings) (pk : Z) (w : World) (a : Activation),
    activations (db w) !! pk = Some a →
    id a = pk →
    (is_enabled a = true →
       enable settings pk w
       = (Ok {| data := None; status_code := 204 |}, w))
    ∧ (is_enabled a = false →
       status a ∈ [STOPPED; FAILED; COMPLETED; ERROR] →
       ∃ w' a',
         enable settings pk w
         = (Ok {| data := None; status_code := 204 |}, w')
         ∧ activations (db w') = <[pk := a']> (activations (db w))
         ∧ a' = {| id := id a; name := name a; is_enabled := true;
                   status := PENDING; failure_count := 0;
                   restart_count := restart_count a;
                   current_job_id := Some (next_job w);
                   project_id := project_id a;
                   rulebook_id := rulebook_id a;
                   decision_environment_id := decision_environment_id a;
                   extra_var_id := extra_var_id a;
                   ruleset_stats := ruleset_stats a;
                   modified_at := now w |}
         ∧ instances (db w') = instances (db w)
         ∧ appended w w'
             [ EvSave pk
                 ["is_enabled"; "failure_count"; "status"; "modified_at"];
               EvDispatch
                 (activate_rulesets false pk (DEPLOYMENT_TYPE settings)
                    (WEBSOCKET_BASE_URL settings)
                    (WEBSOCKET_SSL_VERIFY settings));
               EvSave pk ["current_job_id"] ]
         ∧ enable_transition settings pk w).
Proof.
  intros settings pk w a Ha Hid. split.
  - intros Hen. unfold enable, bind at 1.
    rewrite (get_object_or_404_found _ _ _ Ha), Hen. reflexivity.
  - intros Hen Hst.
    assert (Hnb : bool_decide (status a ∈ enable_busy_statuses) = false).
    { repeat (apply elem_of_cons in Hst as [->|Hst]; [reflexivity|]).
      inversion Hst. }
    assert (Hrun : ∃ w' a',
      enable settings pk w
      = (Ok {| data := None; status_code := 204 |}, w')
      ∧ activations (db w') = <[pk := a']> (activations (db w))
      ∧ a' = {| id := id a; name := name a; is_enabled := true;
                status := PENDING; failure_count := 0;
                restart_count := restart_count a;
                current_job_id := Some (next_job w);
                project_id := project_id a;
                rulebook_id := rulebook_id a;
                decision_environment_id := decision_environment_id a;
                extra_var_id := extra_var_id a;
                ruleset_stats := ruleset_stats a;
                modified_at := now w |}
      ∧ instances (db w') = instances (db w)
      ∧ appended w w'
          [ EvSave pk
              ["is_enabled"; "failure_count"; "status"; "modified_at"];
            EvDispatch (activate_job settings pk);
            EvSave pk ["current_job_id"] ]).
    { subst pk. unfold enable, bind at 1.
      rewrite (get_object_or_404_found _ _ _ Ha), Hen, Hnb.
      run_save Ha. unfold bind at 1, delay. cbn.
      run_save (lookup_insert_eq (activations (db w)) (id a)).
      rewrite insert_insert_eq. unfold ret.
      eexists _, _. split; [reflexivity|]. cbn.
      do 3 (split; [reflexivity|]).
      unfold appended. cbn. rewrite <- !app_assoc. reflexivity. }
    destruct Hrun as (w' & a' & Hrun & Htab & Ha' & Hinst & Happ).
    exists w', a'. do 5 (split; [assumption|]).
    exists {| data := None; status_code := 204 |}, w'. eexists _, a', _.
    split; [exact Hrun|]. split; [exact Happ|]. split; [reflexivity|].
    split; [rewrite Htab; apply lookup_insert_eq|].
    rewrite Ha'. cbn. repeat split; reflexivity.
Qed.

(** ** Restart *)

(** C4.  On a disabled row, [restart] raises [HttpForbidden], a 403, and
    leaves the world as it found it: nothing is dispatched and the row,
    its [restart_count] included, is what it was. *)
Theorem restart_disabled_forbidden :
  ∀ (settings : Settings) (pk : Z) (w : World) (a : Activation),
    activations (db w) !! pk = Some a →
    is_enabled a = false →
    ∃ e w',
      restart settings pk w = (Raise e, w')
      ∧ e = HttpForbidden "Activation is disabled and cannot be run."
      ∧ exn_status_code e = 403
      ∧ w' = w
      ∧ appended w w' []
      ∧ dispatched (events w') = dispatched (events w)
      ∧ activations (db w') !! pk = Some a
      ∧ (∀ a', activations (db w') !! pk = Some a' →
           restart_count a' = restart_count a).
Proof.
  intros settings pk w a Ha Hen.
  exists (HttpForbidden "Activation is disabled and cannot be run."), w.
  unfold restart, bind at 1. rewrite (get_object_or_404_found _ _ _ Ha).
  rewrite Hen. unfold raise, appended. cbn. rewrite app_nil_r.
  repeat split; try reflexivity; try assumption.
  intros a' Ha'. congruence.
Qed.

(** The whole run of [restart] on an enabled row. *)
Lemma restart_enabled_run settings w a :
  activations (db w) !! id a = Some a →
  is_enabled a = true →
  ∃ w',
    restart settings (id a) w
    = (Ok {| data := None; status_code := 204 |}, w')
    ∧ activations (db w')
      = <[id a := set_modified_at (now w)
                    (set_restart_count (restart_count a + 1) a)]>
          (activations (db w))
    ∧ instances (db w') = instances (db w)
    ∧ appended w w'
        (restart_deactivations settings (db w) (id a)
         ++ [EvDispatch (activate_job settings (id a));
             EvSave (id a) ["restart_count"; "modified_at"]]).
Proof.
  intros Ha Hen. unfold restart, bind at 1.
  rewrite (get_object_or_404_found _ _ _ Ha), Hen. cbn [negb].
  unfold bind at 1, get_db. unfold restart_deactivations, appended.
  destruct (head (running_instances_of (db w) (id a))) as [i|].
  - unfold bind at 1. unfold bind at 1, delay, ret at 1.
    unfold bind at 1. cbn -[save].
    run_save Ha. unfold ret. eexists. split; [reflexivity|]. cbn.
    do 2 (split; [reflexivity|]). rewrite <- !app_assoc. reflexivity.
  - unfold bind at 1, ret at 1. unfold bind at 1, delay. cbn -[save].
    run_save Ha. unfold ret. eexists. split; [reflexivity|]. cbn.
    do 2 (split; [reflexivity|]). rewrite <- !app_assoc. reflexivity.
Qed.

(** C5.  On an enabled row, [restart] answers 204 and writes the row back
    with [restart_count] one higher, nothing else but the modification
    time changed.  When the Activation has a RUNNING instance, the trace
    grows by one "deactivate" job for the first such instance, then one
    "activate" job with [is_restart = false], then the write; when it has
    none, by the "activate" job and the write only. *)
Theorem restart_enabled_dispatches :
  ∀ (settings : Settings) (pk : Z) (w : World) (a : Activation),
    activations (db w) !! pk = Some a →
    id a = pk →
    is_enabled a = true →
    ∃ w' a',
      restart settings pk w = (Ok {| data := None; status_code := 204 |}, w')
      ∧ activations (db w') !! pk = Some a'
      ∧ restart_count a' = restart_count a + 1
      ∧ a' = {| id := id a; name := name a; is_enabled := is_enabled a;
                status := status a; failure_count := failure_count a;
                restart_count := restart_count a + 1;
                current_job_id := current_job_id a;
                project_id := project_id a;
                rulebook_id := rulebook_id a;
                decision_environment_id := decision_environment_id a;
                extra_var_id := extra_var_id a;
                ruleset_stats := ruleset_stats a;
                modified_at := now w |}
      ∧ (∀ i rest,
           running_instances_of (db w) pk = i :: rest →
           i ∈ instances (db w)
           ∧ inst_activation_id i = pk
           ∧ inst_status i = RUNNING
           ∧ appended w w'
               [ EvDispatch
                   (deactivate_rulesets (inst_id i) (DEPLOYMENT_TYPE settings));
                 EvDispatch
                   (activate_rulesets false pk (DEPLOYMENT_TYPE settings)
                      (WEBSOCKET_BASE_URL settings)
                      (WEBSOCKET_SSL_VERIFY settings));
                 EvSave pk ["restart_count"; "modified_at"] ])
      ∧ (running_instances_of (db w) pk = [] →
           appended w w'
             [ EvDispatch
                 (activate_rulesets false pk (DEPLOYMENT_TYPE settings)
                    (WEBSOCKET_BASE_URL settings)
                    (WEBSOCKET_SSL_VERIFY settings));
               EvSave pk ["restart_count"; "modified_at"] ]).
Proof.
  intros settings pk w a Ha <- Hen.
  destruct (restart_enabled_run settings w a Ha Hen)
    as (w' & Hrun & Htab & _ & Happ).
  exists w'. eexists. split; [exact Hrun|].
  split; [rewrite Htab; apply lookup_insert_eq|].
  split; [reflexivity|]. split; [reflexivity|].
  unfold restart_deactivations in Happ. split.
  - intros i rest Hrunning. rewrite Hrunning in Happ. cbn in Happ.
    assert (Hi : i ∈ running_instances_of (db w) (id a))
      by (rewrite Hrunning; apply list_elem_of_here).
    unfold running_instances_of in Hi.
    apply list_elem_of_filter in Hi as [[Hown Hst] Hin].
    repeat split; assumption.
  - intros Hnone. rewrite Hnone in Happ. exact Happ.
Qed.

(** C10.  On an enabled row whose Activation has two or more RUNNING
    instances, the one "deactivate" job of [restart] is for the first of
    them in queryset order; no job of the run is aimed at any other
    RUNNING instance. *)
Theorem restart_deactivates_first_running_only :
  ∀ (settings : Settings) (pk : Z) (w : World) (a : Activation)
    (i j : ActivationInstance) (rest : list ActivationInstance),
    activations (db w) !! pk = Some a →
    id a = pk →
    is_enabled a = true →
    running_instances_of (db w) pk = i :: j :: rest →
    ∃ w' new,
      restart settings pk w = (Ok {| data := None; status_code := 204 |}, w')
      ∧ appended w w' new
      ∧ deactivations new
        = [deactivate_rulesets (inst_id i) (DEPLOYMENT_TYPE settings)]
      ∧ (∃ before after,
           instances (db w) = before ++ i :: after
           ∧ Forall (fun k => ¬ (inst_activation_id k = pk
                                 ∧ inst_status k = RUNNING)) before)
      ∧ (∀ k, k ∈ j :: rest →
           inst_id k ≠ inst_id i →
           ∀ job, job ∈ dispatched new →
             targets_instance (inst_id k) job = false).
Proof.
  intros settings pk w a i j rest Ha <- Hen Hrunning.
  destruct (restart_enabled_run settings w a Ha Hen)
    as (w' & Hrun & _ & _ & Happ).
  unfold restart_deactivations in Happ. rewrite Hrunning in Happ.
  cbn in Happ. eexists w', _. split; [exact Hrun|].
  split; [exact Happ|]. split; [reflexivity|]. split.
  - apply (head_filter_Some _ (instances (db w)) i).
    unfold running_instances_of in Hrunning. rewrite Hrunning. reflexivity.
  - intros k Hk Hne job Hjob. cbn in Hjob.
    apply elem_of_cons in Hjob as [->|Hjob].
    + cbn. apply bool_decide_eq_false. congruence.
    + apply elem_of_cons in Hjob as [->|Hjob]; [reflexivity|].
      inversion Hjob.
Qed.

(** ** Disable *)

(** Against C6 as worded: Activation 2 of the sample is enabled and
    has two RUNNING instances, and [disable] dispatches a single job, the
    [deactivate] task for the Activation, not one job per instance. *)
Lemma disable_dispatches_once_for_two_running :
  activations (db sample_world) !! 2 = Some (sample_activation 2 true RUNNING)
  ∧ length (running_instances_of (db sample_world) 2) = 2%nat
  ∧ (∃ w', disable 2 sample_world
           = (Ok {| data := None; status_code := 204 |}, w')
           ∧ dispatched (events w') = [deactivate 2])
  ∧ ¬ disable_one_per_running_instance 2 sample_world.
Proof.
  split; [vm_compute; reflexivity|]. split; [vm_compute; reflexivity|].
  assert (Hr : fst (disable 2 sample_world)
               = Ok {| data := None; status_code := 204 |})
    by (vm_compute; reflexivity).
  assert (He : events (snd (disable 2 sample_world))
               = [EvSave 2 ["is_enabled"; "status"; "modified_at"];
                  EvDispatch (deactivate 2)])
    by (vm_compute; reflexivity).
  split.
  - exists (snd (disable 2 sample_world)). rewrite <- Hr, He.
    split; [apply surjective_pairing|reflexivity].
  - intros (resp & w' & new & Hrun & Happ & Hlen).
    rewrite Hrun in He. cbn in He. unfold appended in Happ.
    rewrite He in Happ. cbn in Happ. subst new.
    vm_compute in Hlen. discriminate Hlen.
Qed.

(** C6, amended.  On a disabled row [disable] answers 204 and changes and
    dispatches nothing.  On an enabled row it answers 204 after it has
    written [status = STOPPING] and [is_enabled = false] and then
    dispatched exactly one job, the [deactivate] task with the
    Activation's id, however many instances are running; the instance rows
    are not touched. *)
Theorem disable_dispatches_one_deactivate :
  ∀ (pk : Z) (w : World) (a : Activation),
    activations (db w) !! pk = Some a →
    id a = pk →
    (is_enabled a = false →
       disable pk w = (Ok {| data := None; status_code := 204 |}, w))
    ∧ (is_enabled a = true →
       ∃ w' a',
         disable pk w = (Ok {| data := None; status_code := 204 |}, w')
         ∧ activations (db w') = <[pk := a']> (activations (db w))
         ∧ a' = {| id := id a; name := name a; is_enabled := false;
                   status := STOPPING; failure_count := failure_count a;
                   restart_count := restart_count a;
                   current_job_id := current_job_id a;
                   project_id := project_id a;
                   rulebook_id := rulebook_id a;
                   decision_environment_id := decision_environment_id a;
                   extra_var_id := extra_var_id a;
                   ruleset_stats := ruleset_stats a;
                   modified_at := now w |}
         ∧ instances (db w') = instances (db w)
         ∧ appended w w'
             [ EvSave pk ["is_enabled"; "status"; "modified_at"];
               EvDispatch (deactivate pk) ]
         ∧ deactivations
             [ EvSave pk ["is_enabled"; "status"; "modified_at"];
               EvDispatch (deactivate pk) ]
           = [deactivate pk]).
Proof.
  intros pk w a Ha <-. split; intros Hen.
  - unfold disable, bind at 1.
    rewrite (get_object_or_404_found _ _ _ Ha), Hen. reflexivity.
  - unfold disable, bind at 1.
    rewrite (get_object_or_404_found _ _ _ Ha), Hen.
    unfold bind at 1. run_save Ha. unfold ret.
    eexists _, _. split; [reflexivity|]. cbn.
    do 3 (split; [reflexivity|]). split; [|reflexivity].
    unfold appended. cbn. rewrite <- !app_assoc. reflexivity.
Qed.

(** ** Delete *)

(** A loop that only dispatches: one job per element, in list order. *)
Lemma for_each_delay {A} (job_of : A -> Job) (xs : list A) (w : World) :
  for_each xs (fun x => _ <- delay (job_of x) ;; ret tt) w
  = (Ok tt,
     {| db := db w; now := now w;
        next_job := next_job w + Z.of_nat (length xs);
        events := events w ++ (EvDispatch ∘ job_of <$> xs) |}).
Proof.
  revert w. induction xs as [|x xs IH]; intros w.
  - cbn. unfold ret. rewrite Z.add_0_r, app_nil_r. destruct w; reflexivity.
  - cbn [for_each]. unfold bind at 1. unfold bind at 1, delay, ret at 1.
    rewrite IH. cbn [db now next_job events length fmap list_fmap].
    rewrite <- app_assoc.
    replace (next_job w + 1 + Z.of_nat (length xs))
      with (next_job w + Z.of_nat (S (length xs))) by lia.
    reflexivity.
Qed.

Lemma dispatched_fmap_dispatch {A} (job_of : A -> Job) (xs : list A) :
  dispatched (EvDispatch ∘ job_of <$> xs) = job_of <$> xs.
Proof.
  unfold dispatched. induction xs as [|x xs IH]; [reflexivity|].
  cbn. f_equal. exact IH.
Qed.

(** When every instance of an Activation is RUNNING, its instances are
    its running instances. *)
Lemma instances_of_all_running d pk :
  Forall (fun i => inst_status i = RUNNING) (instances_of d pk) →
  instances_of d pk = running_instances_of d pk.
Proof.
  unfold instances_of, running_instances_of.
  induction (instances d) as [|i l IH]; [reflexivity|].
  rewrite !filter_cons.
  destruct (decide (inst_activation_id i = pk)) as [Hown|Hown].
  - intros Hall. apply Forall_cons in Hall as [Hst Hall].
    rewrite decide_True by (split; assumption).
    f_equal. apply IH. exact Hall.
  - intros Hall. rewrite decide_False by (intros [? ?]; contradiction).
    apply IH. exact Hall.
Qed.

(** No instance of an Activation survives the rows that are not its own. *)
Lemma instances_of_others (l : list ActivationInstance) pk :
  filter (fun i => inst_activation_id i = pk)
    (filter (fun i => inst_activation_id i ≠ pk) l) = [].
Proof.
  induction l as [|i l IH]; [reflexivity|].
  rewrite filter_cons.
  destruct (decide (inst_activation_id i ≠ pk)) as [Hne|Heq].
  - rewrite filter_cons_False by exact Hne. exact IH.
  - exact IH.
Qed.

(** Per-instance jobs are all "deactivate" jobs. *)
Lemma deactivate_rulesets_all_kept (dt : string)
    (l : list ActivationInstance) :
  filter (fun j => is_deactivate j = true)
    ((fun i => deactivate_rulesets (inst_id i) dt) <$> l)
  = (fun i => deactivate_rulesets (inst_id i) dt) <$> l.
Proof.
  induction l as [|i l IH]; [reflexivity|].
  cbn [fmap list_fmap]. rewrite filter_cons_True by reflexivity.
  f_equal. exact IH.
Qed.

(** Against C7 as worded: Activation 2 of the sample owns two RUNNING
    instances and a STOPPED one, and deleting it dispatches three
    "deactivate" jobs, one per instance, not two. *)
Lemma destroy_dispatches_for_stopped_instance_too :
  activations (db sample_world) !! 2 = Some (sample_activation 2 true RUNNING)
  ∧ length (running_instances_of (db sample_world) 2) = 2%nat
  ∧ fst (destroy default_settings 2 sample_world)
    = Ok {| data := None; status_code := 204 |}
  ∧ events (snd (destroy default_settings 2 sample_world))
    = [ EvDispatch (deactivate_rulesets 10 "local");
        EvDispatch (deactivate_rulesets 11 "local");
        EvDispatch (deactivate_rulesets 13 "local");
        EvDelete 2 ]
  ∧ ¬ destroy_one_per_running_instance default_settings 2 sample_world.
Proof.
  assert (He : events (snd (destroy default_settings 2 sample_world))
               = [ EvDispatch (deactivate_rulesets 10 "local");
                   EvDispatch (deactivate_rulesets 11 "local");
                   EvDispatch (deactivate_rulesets 13 "local");
                   EvDelete 2 ])
    by (vm_compute; reflexivity).
  split; [vm_compute; reflexivity|]. split; [vm_compute; reflexivity|].
  split; [vm_compute; reflexivity|]. split; [exact He|].
  intros (resp & w' & new & Hrun & Happ & Hlen).
  rewrite Hrun in He. cbn in He. unfold appended in Happ.
  rewrite He in Happ. cbn in Happ. subst new.
  vm_compute in Hlen. discriminate Hlen.
Qed.

(** C7, amended.  Deleting a stored Activation answers 204 after it has
    dispatched exactly one "deactivate" job per instance row that belongs
    to the Activation, whatever the status of the instance and in queryset
    order, and only then removed the row: the removal is the last event.
    The number of jobs is the number of instances of the Activation, which
    is the number of its RUNNING instances when all of them are RUNNING. *)
Theorem destroy_deactivates_every_instance :
  ∀ (settings : Settings) (pk : Z) (w : World) (a : Activation),
    activations (db w) !! pk = Some a →
    id a = pk →
    ∃ w' jobs,
      destroy settings pk w = (Ok {| data := None; status_code := 204 |}, w')
      ∧ jobs = (fun instance =>
                  deactivate_rulesets (inst_id instance)
                    (DEPLOYMENT_TYPE settings))
               <$> instances_of (db w) pk
      ∧ appended w w' ((EvDispatch <$> jobs) ++ [EvDelete pk])
      ∧ dispatched ((EvDispatch <$> jobs) ++ [EvDelete pk]) = jobs
      ∧ deactivations ((EvDispatch <$> jobs) ++ [EvDelete pk]) = jobs
      ∧ length jobs = length (instances_of (db w) pk)
      ∧ (Forall (fun i => inst_status i = RUNNING) (instances_of (db w) pk) →
           length jobs = length (running_instances_of (db w) pk))
      ∧ activations (db w') !! pk = None
      ∧ instances_of (db w') pk = [].
Proof.
  intros settings pk w a Ha <-.
  unfold destroy, bind at 1. rewrite (get_object_or_404_found _ _ _ Ha).
  unfold bind at 1, perform_destroy. unfold bind at 1, get_db.
  unfold bind at 1. rewrite for_each_delay. unfold model_delete, ret.
  eexists _, _. split; [reflexivity|]. split; [reflexivity|].
  set (job_of := fun instance : ActivationInstance =>
         deactivate_rulesets (inst_id instance) (DEPLOYMENT_TYPE settings)).
  assert (Hd : dispatched
                 ((EvDispatch <$> (job_of <$> instances_of (db w) (id a)))
                  ++ [EvDelete (id a)])
               = job_of <$> instances_of (db w) (id a)).
  { rewrite dispatched_app. cbn. rewrite app_nil_r.
    rewrite <- list_fmap_compose. apply dispatched_fmap_dispatch. }
  split.
  { unfold appended. cbn. rewrite <- app_assoc, list_fmap_compose.
    reflexivity. }
  split; [exact Hd|]. split.
  { unfold deactivations. rewrite Hd. apply deactivate_rulesets_all_kept. }
  split; [apply length_fmap|]. split.
  { intros Hall. rewrite length_fmap.
    rewrite (instances_of_all_running _ _ Hall). reflexivity. }
  split; [cbn; apply lookup_delete_eq|].
  cbn. unfold instances_of. cbn. apply instances_of_others.
Qed.

(** * Runs on the sample data *)

Example create_enabled_dispatches :
  dispatched (events (snd (sample_create (sample_payload true) sample_world)))
  = [activate_rulesets false 5 "local" "ws://localhost:8000" "yes"].
Proof. vm_compute. reflexivity. Qed.

Example create_disabled_dispatches_nothing :
  dispatched (events (snd (sample_create (sample_payload false) sample_world)))
  = []
  ∧ events (snd (sample_create (sample_payload false) sample_world))
    = [EvInsert 5].
Proof. split; vm_compute; reflexivity. Qed.

Example create_missing_rulebook :
  sample_create sample_payload_no_rulebook sample_world
  = (Raise (Unprocessable "Rulebook with ID=99 does not exist."),
     sample_world).
Proof. vm_compute. reflexivity. Qed.

Example conflict_names_rulebook :
  handle_activation_create_conflict (A := Activation)
    {[ "project_id" := Some 7; "rulebook_id" := Some 99;
       "extra_var_id" := Some 8 ]} sample_world
  = (Raise (Unprocessable "Rulebook with ID=99 does not exist."),
     sample_world).
Proof. vm_compute. reflexivity. Qed.

Example conflict_names_first_in_order :
  handle_activation_create_conflict (A := Activation)
    {[ "rulebook_id" := Some 99; "decision_environment_id" := Some (-4) ]}
    sample_world
  = (Raise (Unprocessable "Decision_environment with ID=-4 does not exist."),
     sample_world).
Proof. vm_compute. reflexivity. Qed.

Example conflict_all_present :
  handle_activation_create_conflict (A := Activation)
    {[ "project_id" := Some 7; "rulebook_id" := Some 3;
       "extra_var_id" := None ]} sample_world
  = (Raise (Unprocessable "Integrity error."), sample_world).
Proof. vm_compute. reflexivity. Qed.

Example retrieve_sample_counts :
  (fun resp => (status_code <$> resp, rules_count <$> (resp ≫= data),
                rules_fired_count <$> (resp ≫= data)))
    (match fst (retrieve 2 sample_world) with
     | Ok resp => Some resp
     | Raise _ => None
     end)
  = (Some 200, Some 6, Some 6).
Proof. vm_compute. reflexivity. Qed.

Example capitalize_names :
  PyStr.capitalize "decision_environment" = "Decision_environment"
  ∧ PyStr.capitalize "extra_var" = "Extra_var"
  ∧ PyStr.capitalize "rULEbook" = "Rulebook".
Proof. repeat split. Qed.

(** * The theorems at the sample data *)

Lemma sample_lookup_1 :
  activations (db sample_world) !! 1 = Some (sample_activation 1 false STOPPED).
Proof. vm_compute. reflexivity. Defined.

Lemma sample_lookup_2 :
  activations (db sample_world) !! 2 = Some (sample_activation 2 true RUNNING).
Proof. vm_compute. reflexivity. Defined.

Lemma sample_lookup_3 :
  activations (db sample_world) !! 3 = Some (sample_activation 3 false RUNNING).
Proof. vm_compute. reflexivity. Defined.

Lemma sample_running_2 :
  running_instances_of (db sample_world) 2
  = [sample_instance 11 2 RUNNING; sample_instance 13 2 RUNNING].
Proof. vm_compute. reflexivity. Defined.

(** Enable on Activation 3, disabled while RUNNING: a 409. *)
Lemma enable_busy_conflict_sample :
  activations (db sample_world) !! 3 = Some (sample_activation 3 false RUNNING)
  ∧ is_enabled (sample_activation 3 false RUNNING) = false
  ∧ status (sample_activation 3 false RUNNING)
    ∈ [STARTING; STOPPING; PENDING; RUNNING; UNRESPONSIVE]
  ∧ ∃ resp w',
      enable default_settings 3 sample_world = (Ok resp, w')
      ∧ status_code resp = 409
      ∧ data resp = None
      ∧ db w' = db sample_world
      ∧ activations (db w') !! 3 = Some (sample_activation 3 false RUNNING)
      ∧ events w' = events sample_world
      ∧ appended sample_world w' []
      ∧ w' = sample_world.
Proof.
  assert (Hst : status (sample_activation 3 false RUNNING)
                ∈ [STARTING; STOPPING; PENDING; RUNNING; UNRESPONSIVE])
    by (do 3 apply list_elem_of_further; apply list_elem_of_here).
  split; [exact sample_lookup_3|]. split; [reflexivity|].
  split; [exact Hst|].
  exact (enable_busy_conflict default_settings 3 sample_world
           (sample_activation 3 false RUNNING) sample_lookup_3 eq_refl Hst).
Defined.

(** Enable on Activation 1, disabled and STOPPED: the transition. *)
Lemma enable_idle_activates_sample :
  activations (db sample_world) !! 1 = Some (sample_activation 1 false STOPPED)
  ∧ id (sample_activation 1 false STOPPED) = 1
  ∧ is_enabled (sample_activation 1 false STOPPED) = false
  ∧ status (sample_activation 1 false STOPPED)
    ∈ [STOPPED; FAILED; COMPLETED; ERROR]
  ∧ enable_transition default_settings 1 sample_world.
Proof.
  assert (Hst : status (sample_activation 1 false STOPPED)
                ∈ [STOPPED; FAILED; COMPLETED; ERROR])
    by apply list_elem_of_here.
  split; [exact sample_lookup_1|]. split; [reflexivity|].
  split; [reflexivity|]. split; [exact Hst|].
  destruct (enable_idle_activates default_settings 1 sample_world
              (sample_activation 1 false STOPPED) sample_lookup_1 eq_refl)
    as [_ Hidle].
  destruct (Hidle eq_refl Hst) as (w' & a' & _ & _ & _ & _ & _ & Ht).
  exact Ht.
Defined.

(** Restart on Activation 1, disabled: forbidden. *)
Lemma restart_disabled_forbidden_sample :
  activations (db sample_world) !! 1 = Some (sample_activation 1 false STOPPED)
  ∧ is_enabled (sample_activation 1 false STOPPED) = false
  ∧ ∃ e w',
      restart default_settings 1 sample_world = (Raise e, w')
      ∧ e = HttpForbidden "Activation is disabled and cannot be run."
      ∧ exn_status_code e = 403
      ∧ w' = sample_world
      ∧ appended sample_world w' []
      ∧ dispatched (events w') = dispatched (events sample_world)
      ∧ activations (db w') !! 1 = Some (sample_activation 1 false STOPPED)
      ∧ (∀ a', activations (db w') !! 1 = Some a' →
           restart_count a' = restart_count (sample_activation 1 false STOPPED)).
Proof.
  split; [exact sample_lookup_1|]. split; [reflexivity|].
  exact (restart_disabled_forbidden default_settings 1 sample_world
           (sample_activation 1 false STOPPED) sample_lookup_1 eq_refl).
Defined.

(** Restart on Activation 2, enabled with instances 11 and 13 RUNNING:
    the count goes from 1 to 2. *)
Lemma restart_enabled_dispatches_sample :
  activations (db sample_world) !! 2 = Some (sample_activation 2 true RUNNING)
  ∧ id (sample_activation 2 true RUNNING) = 2
  ∧ is_enabled (sample_activation 2 true RUNNING) = true
  ∧ ∃ w' a',
      restart default_settings 2 sample_world
      = (Ok {| data := None; status_code := 204 |}, w')
      ∧ activations (db w') !! 2 = Some a'
      ∧ restart_count a' = 2
      ∧ appended sample_world w'
          [ EvDispatch (deactivate_rulesets 11 "local");
            EvDispatch
              (activate_rulesets false 2 "local" "ws://localhost:8000" "yes");
            EvSave 2 ["restart_count"; "modified_at"] ].
Proof.
  split; [exact sample_lookup_2|]. split; [reflexivity|].
  split; [reflexivity|].
  destruct (restart_enabled_dispatches default_settings 2 sample_world
              (sample_activation 2 true RUNNING) sample_lookup_2 eq_refl
              eq_refl)
    as (w' & a' & Hrun & Ha' & Hcount & _ & Hsome & _).
  exists w', a'. split; [exact Hrun|]. split; [exact Ha'|].
  split; [exact Hcount|].
  destruct (Hsome _ _ sample_running_2) as (_ & _ & _ & Happ). exact Happ.
Defined.

(** Restart on Activation 2: instance 13 is RUNNING too and gets no job. *)
Lemma restart_deactivates_first_running_only_sample :
  activations (db sample_world) !! 2 = Some (sample_activation 2 true RUNNING)
  ∧ id (sample_activation 2 true RUNNING) = 2
  ∧ is_enabled (sample_activation 2 true RUNNING) = true
  ∧ running_instances_of (db sample_world) 2
    = [sample_instance 11 2 RUNNING; sample_instance 13 2 RUNNING]
  ∧ ∃ w' new,
      restart default_settings 2 sample_world
      = (Ok {| data := None; status_code := 204 |}, w')
      ∧ appended sample_world w' new
      ∧ deactivations new = [deactivate_rulesets 11 "local"].
Proof.
  split; [exact sample_lookup_2|]. split; [reflexivity|].
  split; [reflexivity|]. split; [exact sample_running_2|].
  destruct (restart_deactivates_first_running_only default_settings 2
              sample_world (sample_activation 2 true RUNNING)
              (sample_instance 11 2 RUNNING) (sample_instance 13 2 RUNNING) []
              sample_lookup_2 eq_refl eq_refl sample_running_2)
    as (w' & new & Hrun & Happ & Hde & _).
  exists w', new. split; [exact Hrun|]. split; [exact Happ|]. exact Hde.
Defined.

(** Disable on Activation 2, enabled: one [deactivate] job. *)
Lemma disable_dispatches_one_deactivate_sample :
  activations (db sample_world) !! 2 = Some (sample_activation 2 true RUNNING)
  ∧ id (sample_activation 2 true RUNNING) = 2
  ∧ is_enabled (sample_activation 2 true RUNNING) = true
  ∧ ∃ w',
      disable 2 sample_world
      = (Ok {| data := None; status_code := 204 |}, w')
      ∧ appended sample_world w'
          [ EvSave 2 ["is_enabled"; "status"; "modified_at"];
            EvDispatch (deactivate 2) ].
Proof.
  split; [exact sample_lookup_2|]. split; [reflexivity|].
  split; [reflexivity|].
  destruct (disable_dispatches_one_deactivate 2 sample_world
              (sample_activation 2 true RUNNING) sample_lookup_2 eq_refl)
    as [_ Hen].
  destruct (Hen eq_refl) as (w' & a' & Hrun & _ & _ & _ & Happ & _).
  exists w'. split; [exact Hrun|exact Happ].
Defined.

(** Delete of Activation 2: three jobs, then the removal. *)
Lemma destroy_deactivates_every_instance_sample :
  activations (db sample_world) !! 2 = Some (sample_activation 2 true RUNNING)
  ∧ id (sample_activation 2 true RUNNING) = 2
  ∧ ∃ w' jobs,
      destroy default_settings 2 sample_world
      = (Ok {| data := None; status_code := 204 |}, w')
      ∧ length jobs = length (instances_of (db sample_world) 2)
      ∧ appended sample_world w' ((EvDispatch <$> jobs) ++ [EvDelete 2])
      ∧ activations (db w') !! 2 = None.
Proof.
  split; [exact sample_lookup_2|]. split; [reflexivity|].
  destruct (destroy_deactivates_every_instance default_settings 2
              sample_world (sample_activation 2 true RUNNING)
              sample_lookup_2 eq_refl)
    as (w' & jobs & Hrun & _ & Happ & _ & _ & Hlen & _ & Hgone & _).
  exists w', jobs. split; [exact Hrun|]. split; [exact Hlen|].
  split; [exact Happ|exact Hgone].
Defined.

(** * Further properties of the view set *)

(** ** Whole runs *)

Lemma get_object_or_404_missing pk w :
  activations (db w) !! pk = None → get_object_or_404 pk w = (Raise Http404, w).
Proof.
  intros H. unfold get_object_or_404, bind, get_db, raise. rewrite H.
  reflexivity.
Qed.

Lemma busy_status_dec (st : ActivationStatus) :
  bool_decide (st ∈ enable_busy_statuses) = true
  ∨ (bool_decide (st ∈ enable_busy_statuses) = false
     ∧ st ∈ [STOPPED; FAILED; COMPLETED; ERROR]).
Proof.
  destruct st;
    first [ left; reflexivity
          | right; split; [reflexivity|];
            repeat first [apply list_elem_of_here
                         | apply list_elem_of_further] ].
Qed.

(** The whole run of [enable] on a disabled row that is not busy. *)
Lemma enable_idle_run settings w a :
  activations (db w) !! id a = Some a →
  is_enabled a = false →
  bool_decide (status a ∈ enable_busy_statuses) = false →
  enable settings (id a) w
  = (Ok {| data := None; status_code := 204 |},
     {| db := set_activations
                (<[id a := set_current_job_id (Some (next_job w))
                             (set_modified_at (now w)
                                (set_status PENDING
                                   (set_failure_count 0
                                      (set_is_enabled true a))))]>
                   (activations (db w)))
                (db w);
        now := now w;
        next_job := next_job w + 1;
        events := events w
                  ++ [ EvSave (id a)
                         ["is_enabled"; "failure_count"; "status";
                          "modified_at"];
                       EvDispatch (activate_job settings (id a));
                       EvSave (id a) ["current_job_id"] ] |}).
Proof.
  intros Ha Hen Hnb. unfold enable, bind at 1.
  rewrite (get_object_or_404_found _ _ _ Ha), Hen, Hnb.
  run_save Ha. unfold bind at 1, delay. cbn.
  run_save (lookup_insert_eq (activations (db w)) (id a)).
  rewrite insert_insert_eq. unfold ret. rewrite <- !app_assoc. reflexivity.
Qed.

(** The whole run of [disable] on an enabled row. *)
Lemma disable_enabled_run w a :
  activations (db w) !! id a = Some a →
  is_enabled a = true →
  disable (id a) w
  = (Ok {| data := None; status_code := 204 |},
     {| db := set_activations
                (<[id a := set_modified_at (now w)
                             (set_is_enabled false (set_status STOPPING a))]>
                   (activations (db w)))
                (db w);
        now := now w;
        next_job := next_job w + 1;
        events := events w
                  ++ [ EvSave (id a) ["is_enabled"; "status"; "modified_at"];
                       EvDispatch (deactivate (id a)) ] |}).
Proof.
  intros Ha Hen. unfold disable, bind at 1.
  rewrite (get_object_or_404_found _ _ _ Ha), Hen.
  unfold bind at 1. run_save Ha. unfold ret.
  rewrite <- !app_assoc. reflexivity.
Qed.

(** ** Requests for a key that is not stored *)

(** X1.  [retrieve], [enable], [disable], [restart] and the deletion of a
    key under which no Activation is stored all raise [Http404] and leave
    the world as it is: nothing is written and nothing is dispatched. *)
Theorem missing_pk_is_404 :
  ∀ (settings : Settings) (pk : Z) (w : World),
    activations (db w) !! pk = None →
    retrieve pk w = (Raise Http404, w)
    ∧ enable settings pk w = (Raise Http404, w)
    ∧ disable pk w = (Raise Http404, w)
    ∧ restart settings pk w = (Raise Http404, w)
    ∧ destroy settings pk w = (Raise Http404, w)
    ∧ exn_status_code Http404 = 404.
Proof.
  intros settings pk w Hnone.
  pose proof (get_object_or_404_missing pk w Hnone) as Hg.
  repeat split.
  - unfold retrieve, bind at 1. rewrite Hg. reflexivity.
  - unfold enable, bind at 1. rewrite Hg. reflexivity.
  - unfold disable, bind at 1. unfold bind at 1. rewrite Hg. reflexivity.
  - unfold restart, bind at 1. rewrite Hg. reflexivity.
  - unfold destroy, bind at 1. rewrite Hg. reflexivity.
Qed.

Lemma missing_pk_is_404_sample :
  activations (db sample_world) !! 9 = None
  ∧ retrieve 9 sample_world = (Raise Http404, sample_world)
  ∧ enable default_settings 9 sample_world = (Raise Http404, sample_world)
  ∧ disable 9 sample_world = (Raise Http404, sample_world)
  ∧ restart default_settings 9 sample_world = (Raise Http404, sample_world)
  ∧ destroy default_settings 9 sample_world = (Raise Http404, sample_world)
  ∧ exn_status_code Http404 = 404.
Proof.
  assert (H : activations (db sample_world) !! 9 = None)
    by (vm_compute; reflexivity).
  split; [exact H|].
  exact (missing_pk_is_404 default_settings 9 sample_world H).
Defined.

(** ** Requests one after the other *)

(** X2.  Enable is idempotent: once [enable] has gone through on a row, a
    second [enable] answers 204 and leaves the world of the first as it
    is, so the "activate" job is dispatched once, not twice. *)
Theorem enable_twice_dispatches_once :
  ∀ (settings : Settings) (pk : Z) (w : World) (a : Activation),
    activations (db w) !! pk = Some a →
    id a = pk →
    is_enabled a = false →
    status a ∈ [STOPPED; FAILED; COMPLETED; ERROR] →
    ∃ w1,
      enable settings pk w = (Ok {| data := None; status_code := 204 |}, w1)
      ∧ enable settings pk w1
        = (Ok {| data := None; status_code := 204 |}, w1)
      ∧ (∃ new, appended w w1 new
                ∧ dispatched new = [activate_job settings pk]).
Proof.
  intros settings pk w a Ha <- Hen Hst.
  assert (Hnb : bool_decide (status a ∈ enable_busy_statuses) = false).
  { repeat (apply elem_of_cons in Hst as [->|Hst]; [reflexivity|]).
    inversion Hst. }
  rewrite (enable_idle_run settings w a Ha Hen Hnb).
  eexists. split; [reflexivity|]. split.
  - unfold enable, bind at 1.
    erewrite get_object_or_404_found by (cbn; apply lookup_insert_eq).
    reflexivity.
  - eexists. split; [reflexivity|]. reflexivity.
Qed.

Lemma enable_twice_dispatches_once_sample :
  activations (db sample_world) !! 1 = Some (sample_activation 1 false STOPPED)
  ∧ ∃ w1,
      enable default_settings 1 sample_world
      = (Ok {| data := None; status_code := 204 |}, w1)
      ∧ enable default_settings 1 w1
        = (Ok {| data := None; status_code := 204 |}, w1)
      ∧ (∃ new, appended sample_world w1 new
                ∧ dispatched new = [activate_job default_settings 1]).
Proof.
  split; [exact sample_lookup_1|].
  exact (enable_twice_dispatches_once default_settings 1 sample_world
           (sample_activation 1 false STOPPED) sample_lookup_1 eq_refl
           eq_refl (list_elem_of_here _ _)).
Defined.

(** X3.  Once [disable] has gone through on an enabled row, the view set
    accepts no further transition for it until its status is changed from
    outside: [enable] answers 409 (the row is STOPPING), [restart] raises
    [HttpForbidden], a second [disable] answers 204, and none of the three
    changes the world or dispatches. *)
Theorem disabled_row_accepts_no_transition :
  ∀ (settings : Settings) (pk : Z) (w : World) (a : Activation),
    activations (db w) !! pk = Some a →
    id a = pk →
    is_enabled a = true →
    ∃ w1 a1,
      disable pk w = (Ok {| data := None; status_code := 204 |}, w1)
      ∧ activations (db w1) !! pk = Some a1
      ∧ is_enabled a1 = false
      ∧ status a1 = STOPPING
      ∧ enable settings pk w1
        = (Ok {| data := None; status_code := 409 |}, w1)
      ∧ restart settings pk w1
        = (Raise (HttpForbidden "Activation is disabled and cannot be run."),
           w1)
      ∧ disable pk w1 = (Ok {| data := None; status_code := 204 |}, w1).
Proof.
  intros settings pk w a Ha <- Hen.
  rewrite (disable_enabled_run w a Ha Hen).
  eexists _, _. split; [reflexivity|].
  split; [cbn; apply lookup_insert_eq|].
  split; [reflexivity|]. split; [reflexivity|].
  repeat split.
  - unfold enable, bind at 1.
    erewrite get_object_or_404_found by (cbn; apply lookup_insert_eq).
    reflexivity.
  - unfold restart, bind at 1.
    erewrite get_object_or_404_found by (cbn; apply lookup_insert_eq).
    reflexivity.
  - unfold disable, bind at 1. unfold bind at 1.
    erewrite get_object_or_404_found by (cbn; apply lookup_insert_eq).
    reflexivity.
Qed.

Lemma disabled_row_accepts_no_transition_sample :
  activations (db sample_world) !! 2 = Some (sample_activation 2 true RUNNING)
  ∧ ∃ w1 a1,
      disable 2 sample_world
      = (Ok {| data := None; status_code := 204 |}, w1)
      ∧ activations (db w1) !! 2 = Some a1
      ∧ is_enabled a1 = false
      ∧ status a1 = STOPPING
      ∧ enable default_settings 2 w1
        = (Ok {| data := None; status_code := 409 |}, w1)
      ∧ restart default_settings 2 w1
        = (Raise (HttpForbidden "Activation is disabled and cannot be run."),
           w1)
      ∧ disable 2 w1 = (Ok {| data := None; status_code := 204 |}, w1).
Proof.
  split; [exact sample_lookup_2|].
  exact (disabled_row_accepts_no_transition default_settings 2 sample_world
           (sample_activation 2 true RUNNING) sample_lookup_2 eq_refl eq_refl).
Defined.

Lemma restart_block_instances settings d d' pk :
  instances d' = instances d →
  restart_block settings d' pk = restart_block settings d pk.
Proof.
  intros H.
  unfold restart_block, restart_deactivations, running_instances_of.
  rewrite H. reflexivity.
Qed.

(** X4.  Restart requests add up: [n] of them on an enabled row all answer,
    raise [restart_count] by [n] and leave [is_enabled], [status] and
    [current_job_id] as they were.  The instance rows are not touched, so
    each request dispatches the same jobs again, the "deactivate" job for
    the same first RUNNING instance included. *)
Theorem restart_times_adds_up :
  ∀ (settings : Settings) (pk : Z) (n : nat) (w : World) (a : Activation),
    activations (db w) !! pk = Some a →
    id a = pk →
    is_enabled a = true →
    ∃ w' a',
      restart_times settings pk n w = (Ok tt, w')
      ∧ activations (db w') !! pk = Some a'
      ∧ id a' = pk
      ∧ restart_count a' = restart_count a + Z.of_nat n
      ∧ is_enabled a' = true
      ∧ status a' = status a
      ∧ current_job_id a' = current_job_id a
      ∧ instances (db w') = instances (db w)
      ∧ appended w w' (mjoin (replicate n (restart_block settings (db w) pk))).
Proof.
  intros settings pk n. induction n as [|n IH]; intros w a Ha Hid Hen.
  - exists w, a. cbn. unfold ret, appended. rewrite app_nil_r, Z.add_0_r.
    repeat split; assumption.
  - subst pk.
    destruct (restart_enabled_run settings w a Ha Hen)
      as (w1 & Hrun & Htab & Hinst & Happ).
    set (a1 := set_modified_at (now w)
                 (set_restart_count (restart_count a + 1) a)) in Htab.
    assert (Ha1 : activations (db w1) !! id a = Some a1)
      by (rewrite Htab; apply lookup_insert_eq).
    destruct (IH w1 a1 Ha1 eq_refl Hen)
      as (w' & a' & Hrest & Ha' & Hid' & Hcount & Hen' & Hst' & Hjob'
          & Hinst' & Happ').
    exists w', a'. cbn [restart_times]. unfold bind at 1. rewrite Hrun.
    split; [exact Hrest|]. split; [exact Ha'|]. split; [exact Hid'|].
    split; [rewrite Hcount; cbn [restart_count a1 set_modified_at
                                  set_restart_count]; lia|].
    split; [exact Hen'|]. split; [exact Hst'|]. split; [exact Hjob'|].
    split; [congruence|].
    unfold appended in *. rewrite Happ', Happ.
    rewrite (restart_block_instances settings (db w) (db w1) (id a) Hinst).
    change (mjoin (replicate (S n) (restart_block settings (db w) (id a))))
      with (restart_block settings (db w) (id a)
            ++ mjoin (replicate n (restart_block settings (db w) (id a)))).
    unfold restart_block at 2. rewrite <- !app_assoc. reflexivity.
Qed.

Lemma restart_times_adds_up_sample :
  activations (db sample_world) !! 2 = Some (sample_activation 2 true RUNNING)
  ∧ ∃ w' a',
      restart_times default_settings 2 3 sample_world = (Ok tt, w')
      ∧ activations (db w') !! 2 = Some a'
      ∧ restart_count a' = 4
      ∧ dispatched (events w')
        = [ deactivate_rulesets 11 "local";
            activate_job default_settings 2;
            deactivate_rulesets 11 "local";
            activate_job default_settings 2;
            deactivate_rulesets 11 "local";
            activate_job default_settings 2 ].
Proof.
  split; [exact sample_lookup_2|].
  destruct (restart_times_adds_up default_settings 2 3 sample_world
              (sample_activation 2 true RUNNING) sample_lookup_2 eq_refl
              eq_refl)
    as (w' & a' & Hrun & Ha' & _ & Hcount & _ & _ & _ & _ & Happ).
  exists w', a'. split; [exact Hrun|]. split; [exact Ha'|].
  split; [exact Hcount|]. unfold appended in Happ. rewrite Happ.
  vm_compute. reflexivity.
Defined.

(** ** What a transition leaves alone *)

Lemma touches_only_refl key w : touches_only key w w.
Proof.
  unfold touches_only. do 8 (split; [reflexivity|]).
  exists []. unfold appended. rewrite app_nil_r. cbn.
  split; [reflexivity|lia].
Qed.

Lemma touches_only_trans key w1 w2 w3 :
  touches_only key w1 w2 → touches_only key w2 w3 → touches_only key w1 w3.
Proof.
  intros (Hi & Hp & Hr & Hd & He & Hn & Ho & Hk & new1 & Ha1 & Hj1)
         (Hi' & Hp' & Hr' & Hd' & He' & Hn' & Ho' & Hk' & new2 & Ha2 & Hj2).
  unfold touches_only.
  do 6 (split; [congruence|]).
  split; [intros k Hne; rewrite Ho', Ho by exact Hne; reflexivity|].
  split; [intros k; rewrite Hk', Hk; reflexivity|].
  exists (new1 ++ new2). unfold appended in *.
  split; [rewrite Ha2, Ha1, app_assoc; reflexivity|].
  rewrite dispatched_app, length_app. lia.
Qed.

Lemma touches_only_delay key j w : touches_only key w (snd (delay j w)).
Proof.
  unfold touches_only, delay. cbn. do 8 (split; [reflexivity|]).
  exists [EvDispatch j]. split; reflexivity.
Qed.

Lemma touches_only_save update_fields mem w :
  touches_only (id mem) w (snd (save update_fields mem w)).
Proof.
  unfold save.
  destruct (activations (db w) !! id mem) as [row|] eqn:E;
    [|apply touches_only_refl].
  unfold touches_only. cbn. do 6 (split; [reflexivity|]).
  split; [intros k Hne; apply lookup_insert_ne; congruence|].
  split.
  - intros k. destruct (decide (k = id mem)) as [->|Hne].
    + rewrite lookup_insert_eq, E. split; eauto.
    + rewrite lookup_insert_ne by congruence. reflexivity.
  - exists [EvSave (id mem) update_fields]. split; [reflexivity|].
    cbn. lia.
Qed.

Lemma save_ok_id update_fields mem w m w1 :
  save update_fields mem w = (Ok m, w1) → id m = id mem.
Proof.
  unfold save. destruct (activations (db w) !! id mem); [|discriminate].
  intros [= <- _]. destruct (bool_decide _); reflexivity.
Qed.

Lemma get_object_or_404_inv pk w r w1 :
  get_object_or_404 pk w = (r, w1) →
  w1 = w ∧ ∀ a, r = Ok a → activations (db w) !! pk = Some a.
Proof.
  unfold get_object_or_404, bind, get_db, ret, raise.
  destruct (activations (db w) !! pk) as [a|]; intros [= <- <-].
  - split; [reflexivity|]. intros a' [= <-]. reflexivity.
  - split; [reflexivity|]. discriminate.
Qed.

(** Composition of footprints along a [bind]. *)
Lemma touches_only_bind {A B} key (m : M A) (k : A -> M B) w :
  touches_only key w (snd (m w)) →
  (∀ a w1, m w = (Ok a, w1) → touches_only key w1 (snd (k a w1))) →
  touches_only key w (snd (bind m k w)).
Proof.
  intros Hm Hk. unfold bind. destruct (m w) as [[a|e] w1] eqn:E.
  - cbn in Hm. eapply touches_only_trans; [exact Hm|]. apply Hk. reflexivity.
  - exact Hm.
Qed.

(** X5.  Whatever their outcome, [enable], [disable] and [restart] on a
    stored row touch that row only: every other Activation row, the set of
    stored keys, the instance rows, the referenced tables and the clock
    are as before; the trace only grows, and the job handle counter
    advances by exactly the number of jobs dispatched. *)
Theorem transitions_touch_only_their_row :
  ∀ (settings : Settings) (pk : Z) (w : World) (a : Activation),
    activations (db w) !! pk = Some a →
    touches_only (id a) w (snd (enable settings pk w))
    ∧ touches_only (id a) w (snd (disable pk w))
    ∧ touches_only (id a) w (snd (restart settings pk w)).
Proof.
  intros settings pk w a Ha.
  pose proof (get_object_or_404_found pk a w Ha) as Hg.
  split; [|split].
  - unfold enable. apply touches_only_bind;
      [rewrite Hg; apply touches_only_refl|].
    intros a0 w1 E. rewrite Hg in E. injection E as <- <-.
    destruct (is_enabled a); [apply touches_only_refl|].
    destruct (bool_decide _); [apply touches_only_refl|].
    apply touches_only_bind;
      [exact (touches_only_save _
                (set_status PENDING
                   (set_failure_count 0 (set_is_enabled true a))) w)|].
    intros m w1 Es. apply save_ok_id in Es. cbn in Es.
    apply touches_only_bind; [apply touches_only_delay|].
    intros job w2 _.
    apply touches_only_bind; [|intros; apply touches_only_refl].
    rewrite <- Es.
    exact (touches_only_save _ (set_current_job_id (Some job) m) w2).
  - unfold disable. apply touches_only_bind;
      [rewrite Hg; apply touches_only_refl|].
    intros a0 w1 E. rewrite Hg in E. injection E as <- <-.
    apply touches_only_bind; [|intros; apply touches_only_refl].
    destruct (is_enabled a); [|apply touches_only_refl].
    apply touches_only_bind;
      [exact (touches_only_save _
                (set_is_enabled false (set_status STOPPING a)) w)|].
    intros m w1 Es.
    apply touches_only_bind; [|intros; apply touches_only_refl].
    apply touches_only_delay.
  - unfold restart. apply touches_only_bind;
      [rewrite Hg; apply touches_only_refl|].
    intros a0 w1 E. rewrite Hg in E. injection E as <- <-.
    destruct (is_enabled a); [|apply touches_only_refl]. cbn [negb].
    apply touches_only_bind; [apply touches_only_refl|].
    intros d w1 [= <- <-].
    apply touches_only_bind.
    { destruct (head _); [|apply touches_only_refl].
      apply touches_only_bind; [apply touches_only_delay|].
      intros; apply touches_only_refl. }
    intros [] w1 _.
    apply touches_only_bind; [apply touches_only_delay|].
    intros job w2 _.
    apply touches_only_bind; [|intros; apply touches_only_refl].
    exact (touches_only_save _
             (set_restart_count (restart_count a + 1) a) w2).
Qed.

Lemma transitions_touch_only_their_row_sample :
  activations (db sample_world) !! 1 = Some (sample_activation 1 false STOPPED)
  ∧ touches_only 1 sample_world (snd (enable default_settings 1 sample_world))
  ∧ touches_only 1 sample_world (snd (disable 1 sample_world))
  ∧ touches_only 1 sample_world
      (snd (restart default_settings 1 sample_world)).
Proof.
  split; [exact sample_lookup_1|].
  exact (transitions_touch_only_their_row default_settings 1 sample_world
           (sample_activation 1 false STOPPED) sample_lookup_1).
Defined.

(** ** An invariant of the Activation table *)

Lemma preserves_bind {A B} P (m : M A) (k : A -> M B) :
  preserves P m → (∀ a, preserves P (k a)) → preserves P (bind m k).
Proof.
  intros Hm Hk w Hw. unfold bind. specialize (Hm w Hw).
  destruct (m w) as [[a|e] w1]; cbn in Hm.
  - apply Hk. exact Hm.
  - exact Hm.
Qed.

Lemma preserves_ret {A} P (a : A) : preserves P (ret a).
Proof. intros w Hw. exact Hw. Qed.

Lemma preserves_raise {A} P e : preserves P (raise (A := A) e).
Proof. intros w Hw. exact Hw. Qed.

Lemma preserves_db_read {A} P (m : M A) :
  (∀ w, snd (m w) = w) → preserves P m.
Proof. intros H w Hw. rewrite H. exact Hw. Qed.

Lemma get_object_or_404_world pk w : snd (get_object_or_404 pk w) = w.
Proof.
  unfold get_object_or_404, bind, get_db, ret, raise.
  destruct (activations (db w) !! pk); reflexivity.
Qed.

Lemma write_field_id mem row field : id (write_field mem row field) = id row.
Proof.
  unfold write_field. repeat (destruct (decide _); [reflexivity|]).
  reflexivity.
Qed.

Lemma foldl_write_field_id mem row fields :
  id (foldl (write_field mem) row fields) = id row.
Proof.
  revert row. induction fields as [|f fields IH]; intros row;
    [reflexivity|].
  cbn. rewrite IH. apply write_field_id.
Qed.

Lemma keys_are_ids_delay j :
  preserves (fun w => keys_are_ids (db w)) (delay j).
Proof. intros w Hw. exact Hw. Qed.

Lemma keys_are_ids_save update_fields mem :
  preserves (fun w => keys_are_ids (db w)) (save update_fields mem).
Proof.
  intros w Hw. unfold save.
  destruct (activations (db w) !! id mem) as [row|] eqn:E; [|exact Hw].
  cbn. unfold keys_are_ids in *. cbn.
  apply map_Forall_insert_2; [|exact Hw].
  rewrite foldl_write_field_id. exact (Hw _ _ E).
Qed.

Lemma keys_are_ids_model_delete a :
  preserves (fun w => keys_are_ids (db w)) (model_delete a).
Proof.
  intros w Hw. unfold model_delete, keys_are_ids in *. cbn.
  apply map_Forall_delete. exact Hw.
Qed.

Lemma keys_are_ids_for_each {A} (job_of : A -> Job) (xs : list A) :
  preserves (fun w => keys_are_ids (db w))
    (for_each xs (fun x => _ <- delay (job_of x) ;; ret tt)).
Proof. intros w Hw. rewrite for_each_delay. exact Hw. Qed.

Section KeysAreIds.

Context (settings : Settings) {RequestData User ValidatedData : Type}
  (id_fields : ValidatedData -> gmap string (option Z))
  (is_valid : RequestData -> option ValidatedData)
  (serializer_row : ValidatedData -> User -> DB -> option Activation).


End KeysAreIds.

Lemma sample_keys_are_ids : keys_are_ids (db sample_world).
Proof.
  unfold keys_are_ids.
  apply (bool_decide_unpack
           (map_Forall (fun k a => id a = k) (activations (db sample_world)))).
  vm_compute. exact I.
Defined.


(** ** After a deletion *)

(** The whole run of a deletion of a stored row. *)
Lemma destroy_run settings w a :
  activations (db w) !! id a = Some a →
  destroy settings (id a) w
  = (Ok {| data := None; status_code := 204 |},
     {| db := {| activations := delete (id a) (activations (db w));
                 instances :=
                   filter (fun i => inst_activation_id i ≠ id a)
                     (instances (db w));
                 projects := projects (db w);
                 rulebooks := rulebooks (db w);
                 decision_environments := decision_environments (db w);
                 extra_vars := extra_vars (db w) |};
        now := now w;
        next_job := next_job w
                    + Z.of_nat (length (instances_of (db w) (id a)));
        events := (events w
                   ++ (EvDispatch
                       ∘ (fun i => deactivate_rulesets (inst_id i)
                                     (DEPLOYMENT_TYPE settings))
                       <$> instances_of (db w) (id a)))
                  ++ [EvDelete (id a)] |}).
Proof.
  intros Ha. unfold destroy, bind at 1.
  rewrite (get_object_or_404_found _ _ _ Ha).
  unfold bind at 1, perform_destroy. unfold bind at 1, get_db.
  unfold bind at 1. rewrite for_each_delay. reflexivity.
Qed.

(** X7.  A deletion removes the Activation's row and no other Activation
    row; the referenced tables stay, one job handle is used per instance
    of the deleted Activation, and from then on [retrieve], [enable],
    [disable], [restart] and a second deletion raise [Http404] for the
    key. *)
Theorem destroy_removes_row :
  ∀ (settings : Settings) (pk : Z) (w : World) (a : Activation),
    activations (db w) !! pk = Some a →
    id a = pk →
    ∃ w',
      destroy settings pk w = (Ok {| data := None; status_code := 204 |}, w')
      ∧ activations (db w') = delete pk (activations (db w))
      ∧ (∀ k, k ≠ pk → activations (db w') !! k = activations (db w) !! k)
      ∧ projects (db w') = projects (db w)
      ∧ rulebooks (db w') = rulebooks (db w)
      ∧ decision_environments (db w') = decision_environments (db w)
      ∧ extra_vars (db w') = extra_vars (db w)
      ∧ next_job w'
        = next_job w + Z.of_nat (length (instances_of (db w) pk))
      ∧ retrieve pk w' = (Raise Http404, w')
      ∧ enable settings pk w' = (Raise Http404, w')
      ∧ disable pk w' = (Raise Http404, w')
      ∧ restart settings pk w' = (Raise Http404, w')
      ∧ destroy settings pk w' = (Raise Http404, w').
Proof.
  intros settings pk w a Ha <-.
  rewrite (destroy_run settings w a Ha). eexists. split; [reflexivity|].
  cbn [db activations instances projects rulebooks decision_environments
       extra_vars next_job].
  split; [reflexivity|].
  split; [intros k Hne; apply lookup_delete_ne; congruence|].
  do 5 (split; [reflexivity|]).
  match goal with
  | |- retrieve _ ?w1 = _ ∧ _ =>
      assert (Hg : get_object_or_404 (id a) w1 = (Raise Http404, w1))
        by (apply get_object_or_404_missing; cbn; apply lookup_delete_eq)
  end.
  repeat split.
  - unfold retrieve, bind at 1. rewrite Hg. reflexivity.
  - unfold enable, bind at 1. rewrite Hg. reflexivity.
  - unfold disable, bind at 1. unfold bind at 1. rewrite Hg. reflexivity.
  - unfold restart, bind at 1. rewrite Hg. reflexivity.
  - unfold destroy, bind at 1. rewrite Hg. reflexivity.
Qed.

Lemma destroy_removes_row_sample :
  activations (db sample_world) !! 2 = Some (sample_activation 2 true RUNNING)
  ∧ ∃ w',
      destroy default_settings 2 sample_world
      = (Ok {| data := None; status_code := 204 |}, w')
      ∧ next_job w' = 43
      ∧ retrieve 2 w' = (Raise Http404, w').
Proof.
  split; [exact sample_lookup_2|].
  destruct (destroy_removes_row default_settings 2 sample_world
              (sample_activation 2 true RUNNING) sample_lookup_2 eq_refl)
    as (w' & Hrun & _ & _ & _ & _ & _ & _ & Hjob & Hret & _).
  exists w'. split; [exact Hrun|].
  split; [rewrite Hjob; vm_compute; reflexivity|exact Hret].
Defined.

(** ** The rule counters *)

Lemma stats_sum_overwrite (counter : RulesetStat -> Z)
    (stats : gmap string RulesetStat) k old st :
  stats !! k = Some old →
  stats_sum counter (<[k := st]> stats)
  = stats_sum counter stats - counter old + counter st.
Proof.
  intros Hk.
  rewrite <- (insert_delete_eq stats k st).
  rewrite <- (insert_id stats k old Hk) at 2.
  rewrite <- (insert_delete_eq stats k old).
  rewrite !stats_sum_insert by apply lookup_delete_eq. lia.
Qed.

(** X8.  The counters do not depend on the order of the entries: adding
    the statistics of a ruleset under a new name adds its two counters to
    the totals, and replacing the statistics stored under a name swaps
    the old contribution for the new one. *)
Theorem _get_rules_count_insert :
  ∀ (stats : gmap string RulesetStat) (k : string) (st : RulesetStat),
    (stats !! k = None →
       _get_rules_count (<[k := st]> stats)
       = ((_get_rules_count stats).1 + numberOfRules st,
          (_get_rules_count stats).2 + rulesTriggered st))
    ∧ (∀ old, stats !! k = Some old →
         _get_rules_count (<[k := st]> stats)
         = ((_get_rules_count stats).1 - numberOfRules old
            + numberOfRules st,
            (_get_rules_count stats).2 - rulesTriggered old
            + rulesTriggered st)).
Proof.
  intros stats k st. rewrite !_get_rules_count_sums. cbn [fst snd]. split.
  - intros Hk. rewrite !stats_sum_insert by exact Hk. f_equal; lia.
  - intros old Hk. rewrite !(stats_sum_overwrite _ _ _ old) by exact Hk.
    reflexivity.
Qed.

Lemma stats_sum_bounds (counter : RulesetStat -> Z)
    (stats : gmap string RulesetStat) :
  map_Forall (fun _ st => (0 ≤ counter st)%Z) stats →
  (0 ≤ stats_sum counter stats)%Z
  ∧ map_Forall (fun _ st => (counter st ≤ stats_sum counter stats)%Z) stats.
Proof.
  induction stats as [|k st stats Hk IH] using map_ind.
  - intros _. rewrite stats_sum_empty. split; [lia|apply map_Forall_empty].
  - intros Hall. apply map_Forall_insert in Hall as [Hst Hall]; [|exact Hk].
    destruct (IH Hall) as [Hsum Hle].
    rewrite stats_sum_insert by exact Hk. split; [lia|].
    apply map_Forall_insert; [exact Hk|]. split; [lia|].
    intros k' st' Hk'. specialize (Hle k' st' Hk'). cbn in Hle. lia.
Qed.

(** X9.  When no entry has a negative counter, the two totals are not
    negative and no entry's counter exceeds its total. *)
Theorem _get_rules_count_bounds :
  ∀ (stats : gmap string RulesetStat),
    map_Forall (fun _ st => (0 ≤ numberOfRules st)%Z ∧ (0 ≤ rulesTriggered st)%Z)
      stats →
    (0 ≤ (_get_rules_count stats).1)%Z
    ∧ (0 ≤ (_get_rules_count stats).2)%Z
    ∧ ∀ k st, stats !! k = Some st →
        (numberOfRules st ≤ (_get_rules_count stats).1)%Z
        ∧ (rulesTriggered st ≤ (_get_rules_count stats).2)%Z.
Proof.
  intros stats Hall. rewrite _get_rules_count_sums. cbn [fst snd].
  destruct (stats_sum_bounds numberOfRules stats) as [Hn Hnle];
    [intros k st Hk; apply (Hall k st Hk)|].
  destruct (stats_sum_bounds rulesTriggered stats) as [Ht Htle];
    [intros k st Hk; apply (Hall k st Hk)|].
  split; [exact Hn|]. split; [exact Ht|].
  intros k st Hk. split; [exact (Hnle k st Hk)|exact (Htle k st Hk)].
Qed.

Lemma _get_rules_count_bounds_sample :
  map_Forall (fun _ st => (0 ≤ numberOfRules st)%Z ∧ (0 ≤ rulesTriggered st)%Z)
    (ruleset_stats (sample_activation 2 true RUNNING))
  ∧ (0 ≤ (_get_rules_count
            (ruleset_stats (sample_activation 2 true RUNNING))).1)%Z
  ∧ (0 ≤ (_get_rules_count
            (ruleset_stats (sample_activation 2 true RUNNING))).2)%Z.
Proof.
  assert (H : map_Forall
                (fun _ st => (0 ≤ numberOfRules st)%Z ∧ (0 ≤ rulesTriggered st)%Z)
                (ruleset_stats (sample_activation 2 true RUNNING))).
  { apply (bool_decide_unpack
             (map_Forall
                (fun _ st => (0 ≤ numberOfRules st)%Z ∧ (0 ≤ rulesTriggered st)%Z)
                (ruleset_stats (sample_activation 2 true RUNNING)))).
    vm_compute. exact I. }
  split; [exact H|].
  destruct (_get_rules_count_bounds _ H) as (Hn & Ht & _).
  split; [exact Hn|exact Ht].
Defined.

(** ** The enrichment of a record *)

(** [get_if_truthy] reads only, and its outcome is decided by whether the
    reference resolves. *)
Lemma get_if_truthy_cases table ref w :
  (resolvable table ref
   ∧ get_if_truthy table ref w = (Ok (lookup_truthy table ref), w))
  ∨ (¬ resolvable table ref
     ∧ get_if_truthy table ref w = (Raise DoesNotExist, w)).
Proof.
  unfold get_if_truthy, lookup_truthy, objects_get, bind, ret, raise,
    resolvable.
  destruct ref as [pk|].
  - destruct (decide (pk = 0)) as [->|Hne].
    + left. split; [|reflexivity]. intros pk [= <-] Hne. contradiction.
    + destruct (table !! pk) as [row|] eqn:E.
      * left. split; [|reflexivity]. intros pk' [= <-] _. rewrite E. eauto.
      * right. split; [|reflexivity]. intros Hr.
        destruct (Hr pk eq_refl Hne) as [x Hx]. congruence.
  - left. split; [|reflexivity]. intros pk [=].
Qed.

(** The enrichment in one equation, for references that resolve. *)
Lemma _get_activation_dependent_objects_resolved a w :
  refs_resolvable (db w) a →
  _get_activation_dependent_objects a w
  = (Ok {| dep_activation := a;
           dep_project := lookup_truthy (projects (db w)) (project_id a);
           dep_decision_environment :=
             lookup_truthy (decision_environments (db w))
               (decision_environment_id a);
           dep_rulebook := lookup_truthy (rulebooks (db w)) (rulebook_id a);
           dep_extra_var :=
             lookup_truthy (extra_vars (db w)) (extra_var_id a);
           dep_instances := instances_of (db w) (id a);
           dep_restarted_at :=
             match instances_of (db w) (id a) with
             | [] => None
             | first :: rest => Some (latest_started_at first rest)
             end |}, w).
Proof.
  intros (Hp & Hd & Hr & He).
  unfold _get_activation_dependent_objects, bind at 1, get_db.
  destruct (get_if_truthy_cases (projects (db w)) (project_id a) w)
    as [[_ E1]|[Hn _]]; [|contradiction].
  destruct (get_if_truthy_cases (decision_environments (db w))
              (decision_environment_id a) w)
    as [[_ E2]|[Hn _]]; [|contradiction].
  destruct (get_if_truthy_cases (rulebooks (db w)) (rulebook_id a) w)
    as [[_ E3]|[Hn _]]; [|contradiction].
  destruct (get_if_truthy_cases (extra_vars (db w)) (extra_var_id a) w)
    as [[_ E4]|[Hn _]]; [|contradiction].
  unfold bind at 1. rewrite E1. unfold bind at 1. rewrite E2.
  unfold bind at 1. rewrite E3. unfold bind at 1. rewrite E4.
  reflexivity.
Qed.

(** The enrichment when some reference dangles. *)
Lemma _get_activation_dependent_objects_dangling a w :
  ¬ refs_resolvable (db w) a →
  _get_activation_dependent_objects a w = (Raise DoesNotExist, w).
Proof.
  intros Hnot.
  unfold _get_activation_dependent_objects, bind at 1, get_db.
  destruct (get_if_truthy_cases (projects (db w)) (project_id a) w)
    as [[Hp E1]|[_ E1]]; unfold bind at 1; rewrite E1; [|reflexivity].
  destruct (get_if_truthy_cases (decision_environments (db w))
              (decision_environment_id a) w)
    as [[Hd E2]|[_ E2]]; unfold bind at 1; rewrite E2; [|reflexivity].
  destruct (get_if_truthy_cases (rulebooks (db w)) (rulebook_id a) w)
    as [[Hr E3]|[_ E3]]; unfold bind at 1; rewrite E3; [|reflexivity].
  destruct (get_if_truthy_cases (extra_vars (db w)) (extra_var_id a) w)
    as [[He E4]|[_ E4]]; unfold bind at 1; rewrite E4; [|reflexivity].
  exfalso. apply Hnot. repeat split; assumption.
Qed.

(** A successful enrichment had references that resolve. *)
Lemma _get_activation_dependent_objects_ok_resolvable a w ds w' :
  _get_activation_dependent_objects a w = (Ok ds, w') →
  refs_resolvable (db w) a.
Proof.
  intros Hrun.
  assert (Hdec : refs_resolvable (db w) a ∨ ¬ refs_resolvable (db w) a).
  { unfold refs_resolvable.
    destruct (get_if_truthy_cases (projects (db w)) (project_id a) w)
      as [[Hp _]|[Hp _]]; [|right; tauto].
    destruct (get_if_truthy_cases (decision_environments (db w))
                (decision_environment_id a) w)
      as [[Hd _]|[Hd _]]; [|right; tauto].
    destruct (get_if_truthy_cases (rulebooks (db w)) (rulebook_id a) w)
      as [[Hr _]|[Hr _]]; [|right; tauto].
    destruct (get_if_truthy_cases (extra_vars (db w)) (extra_var_id a) w)
      as [[He _]|[He _]]; [|right; tauto].
    left. tauto. }
  destruct Hdec as [H|H]; [exact H|].
  rewrite (_get_activation_dependent_objects_dangling a w H) in Hrun.
  discriminate.
Qed.

(** The references of the sample rows resolve: project 7 is stored. *)
Lemma sample_refs_resolvable pk enabled st :
  refs_resolvable (db sample_world) (sample_activation pk enabled st).
Proof.
  repeat split; intros k [= <-] _. vm_compute. eauto.
Defined.

(** X10.  The enrichment of a record reads only, and it succeeds exactly
    when every reference of the row is [None], falsy (0) or the key of a
    stored row; otherwise it raises [DoesNotExist].  When it succeeds, each
    of project, decision environment, rulebook and extra var is the row
    stored under the reference, or none for a [None] or falsy reference,
    and the instances are the instance rows of the Activation. *)
Theorem _get_activation_dependent_objects_resolves :
  ∀ (a : Activation) (w : World),
    (refs_resolvable (db w) a →
       ∃ ds,
         _get_activation_dependent_objects a w = (Ok ds, w)
         ∧ dep_activation ds = a
         ∧ dep_project ds = lookup_truthy (projects (db w)) (project_id a)
         ∧ dep_decision_environment ds
           = lookup_truthy (decision_environments (db w))
               (decision_environment_id a)
         ∧ dep_rulebook ds
           = lookup_truthy (rulebooks (db w)) (rulebook_id a)
         ∧ dep_extra_var ds
           = lookup_truthy (extra_vars (db w)) (extra_var_id a)
         ∧ dep_instances ds = instances_of (db w) (id a)
         ∧ ∀ i, i ∈ dep_instances ds ↔
                i ∈ instances (db w) ∧ inst_activation_id i = id a)
    ∧ (¬ refs_resolvable (db w) a →
         _get_activation_dependent_objects a w = (Raise DoesNotExist, w))
    ∧ (∀ ds w', _get_activation_dependent_objects a w = (Ok ds, w') →
         refs_resolvable (db w) a).
Proof.
  intros a w. split; [|split].
  - intros Hres. eexists. split;
      [apply (_get_activation_dependent_objects_resolved a w Hres)|].
    cbn. do 6 (split; [reflexivity|]).
    intros i. unfold instances_of. rewrite list_elem_of_filter. tauto.
  - apply _get_activation_dependent_objects_dangling.
  - intros ds w' Hrun.
    exact (_get_activation_dependent_objects_ok_resolvable a w ds w' Hrun).
Qed.

Lemma foldl_max_ge (x : Z) (l : list Z) :
  (x ≤ foldl Z.max x l)%Z ∧ Forall (fun y => (y ≤ foldl Z.max x l)%Z) l.
Proof.
  revert x. induction l as [|y l IH]; intros x; cbn.
  - split; [lia|constructor].
  - destruct (IH (Z.max x y)) as [Hx Hl]. split; [lia|].
    constructor; [lia|exact Hl].
Qed.

Lemma foldl_max_in (x : Z) (l : list Z) : foldl Z.max x l ∈ x :: l.
Proof.
  revert x. induction l as [|y l IH]; intros x; cbn.
  - apply list_elem_of_here.
  - specialize (IH (Z.max x y)).
    apply elem_of_cons in IH as [IH|IH].
    + rewrite IH. destruct (Z.max_spec x y) as [[_ ->]|[_ ->]].
      * apply list_elem_of_further, list_elem_of_here.
      * apply list_elem_of_here.
    + do 2 apply list_elem_of_further. exact IH.
Qed.

(** X11.  In an enriched record [restarted_at] is absent exactly when the
    Activation has no instance row; otherwise it is the start time of one
    of the Activation's instances and no instance of the Activation
    started later. *)
Theorem restarted_at_is_latest_start :
  ∀ (a : Activation) (w w' : World) (ds : ActivationDeps),
    _get_activation_dependent_objects a w = (Ok ds, w') →
    (dep_restarted_at ds = None ↔ instances_of (db w) (id a) = [])
    ∧ ∀ t, dep_restarted_at ds = Some t →
        (∃ i, i ∈ instances (db w)
              ∧ inst_activation_id i = id a
              ∧ started_at i = t)
        ∧ ∀ i, i ∈ instances (db w) → inst_activation_id i = id a →
               (started_at i ≤ t)%Z.
Proof.
  intros a w w' ds Hrun.
  assert (Hres : refs_resolvable (db w) a).
    by exact (_get_activation_dependent_objects_ok_resolvable a w ds w' Hrun).
  rewrite (_get_activation_dependent_objects_resolved a w Hres) in Hrun.
  injection Hrun as <- _. cbn [dep_restarted_at].
  assert (Hown : ∀ i, i ∈ instances_of (db w) (id a) ↔
                      i ∈ instances (db w) ∧ inst_activation_id i = id a)
    by (intros i; unfold instances_of; rewrite list_elem_of_filter; tauto).
  destruct (instances_of (db w) (id a)) as [|first rest] eqn:E.
  - split; [tauto|]. discriminate.
  - split; [split; discriminate|].
    intros t [= <-]. unfold latest_started_at.
    destruct (foldl_max_ge (started_at first) (started_at <$> rest))
      as [Hfirst Hrest].
    pose proof (foldl_max_in (started_at first) (started_at <$> rest)) as Hin.
    split.
    + apply elem_of_cons in Hin as [Hin|Hin].
      * exists first. destruct (proj1 (Hown first)) as [H1 H2];
          [apply list_elem_of_here|]. repeat split; [assumption..|].
        symmetry. exact Hin.
      * apply list_elem_of_fmap in Hin as (i & Hi & Hirest).
        exists i. destruct (proj1 (Hown i)) as [H1 H2];
          [apply list_elem_of_further; exact Hirest|].
        repeat split; [assumption..|]. symmetry. exact Hi.
    + intros i Hi Hia.
      assert (Hmem : i ∈ first :: rest) by (apply Hown; tauto).
      apply elem_of_cons in Hmem as [->|Hmem]; [exact Hfirst|].
      rewrite Forall_forall in Hrest. apply Hrest.
      apply list_elem_of_fmap. exists i. split; [reflexivity|exact Hmem].
Qed.

Lemma restarted_at_is_latest_start_sample :
  ∃ ds,
    _get_activation_dependent_objects (sample_activation 2 true RUNNING)
      sample_world = (Ok ds, sample_world)
    ∧ dep_restarted_at ds = Some 113
    ∧ ∀ i, i ∈ instances (db sample_world) → inst_activation_id i = 2 →
           (started_at i ≤ 113)%Z.
Proof.
  pose proof (_get_activation_dependent_objects_resolved
                (sample_activation 2 true RUNNING) sample_world
                (sample_refs_resolvable 2 true RUNNING)) as Hrun.
  eexists. split; [exact Hrun|].
  split; [vm_compute; reflexivity|].
  destruct (restarted_at_is_latest_start _ _ _ _ Hrun) as [_ Hlatest].
  destruct (Hlatest 113) as [_ Hle]; [vm_compute; reflexivity|]. exact Hle.
Defined.

(** ** The conflict resolver, read backwards *)

Lemma ref_present_or_missing table ref :
  ref_present table ref ∨ ∃ pk, ref_missing table ref pk.
Proof.
  unfold ref_present, ref_missing. destruct ref as [pk|].
  - destruct (table !! pk) as [row|] eqn:E.
    + left. intros pk' [= <-]. rewrite E. eauto.
    + right. exists pk. split; [reflexivity|exact E].
  - left. intros pk [=].
Qed.

Lemma ref_missing_not_present table ref pk :
  ref_missing table ref pk → ¬ ref_present table ref.
Proof.
  intros [-> Hn] Hp. destruct (Hp pk eq_refl) as [x Hx]. congruence.
Qed.

(** X12.  The resolver raises the generic "Integrity error." only when
    none of the given ids is missing: whenever decision_environment,
    project, rulebook or extra_var is given with an id that has no row, the
    detail is a "does not exist" message, never the generic one. *)
Theorem conflict_generic_only_when_all_present :
  ∀ (A : Type) (activation : gmap string (option Z)) (w : World),
    let de := dict_get activation "decision_environment_id" in
    let pr := dict_get activation "project_id" in
    let rb := dict_get activation "rulebook_id" in
    let ev := dict_get activation "extra_var_id" in
    let d := db w in
    ∃ detail,
      handle_activation_create_conflict (A := A) activation w
      = (Raise (Unprocessable detail), w)
      ∧ (detail = "Integrity error."
         ↔ ref_present (decision_environments d) de
           ∧ ref_present (projects d) pr
           ∧ ref_present (rulebooks d) rb
           ∧ ref_present (extra_vars d) ev).
Proof.
  intros A activation w de pr rb ev d.
  destruct (handle_activation_create_conflict_raises A activation w)
    as (detail & E & Hrun).
  exists detail. split; [exact Hrun|]. fold d in E.
  unfold activation_dependent_objects in E. fold de pr rb ev in E.
  destruct (ref_present_or_missing (decision_environments d) de)
    as [H1|[pk H1]].
  2:{ rewrite (conflict_loop_hit _ _ _ pk _ H1) in E. injection E as <-.
      split; [discriminate|].
      intros (Hp & _). destruct (ref_missing_not_present _ _ _ H1 Hp). }
  rewrite conflict_loop_skip in E by exact H1.
  destruct (ref_present_or_missing (projects d) pr) as [H2|[pk H2]].
  2:{ rewrite (conflict_loop_hit _ _ _ pk _ H2) in E. injection E as <-.
      split; [discriminate|].
      intros (_ & Hp & _). destruct (ref_missing_not_present _ _ _ H2 Hp). }
  rewrite conflict_loop_skip in E by exact H2.
  destruct (ref_present_or_missing (rulebooks d) rb) as [H3|[pk H3]].
  2:{ rewrite (conflict_loop_hit _ _ _ pk _ H3) in E. injection E as <-.
      split; [discriminate|].
      intros (_ & _ & Hp & _).
      destruct (ref_missing_not_present _ _ _ H3 Hp). }
  rewrite conflict_loop_skip in E by exact H3.
  destruct (ref_present_or_missing (extra_vars d) ev) as [H4|[pk H4]].
  2:{ rewrite (conflict_loop_hit _ _ _ pk _ H4) in E. injection E as <-.
      split; [discriminate|].
      intros (_ & _ & _ & Hp).
      destruct (ref_missing_not_present _ _ _ H4 Hp). }
  rewrite conflict_loop_skip in E by exact H4.
  cbn in E. injection E as <-. split; [|reflexivity].
  intros _. repeat split; assumption.
Qed.

(** ** Create, when it fails and when it is read back *)

Section CreateMore.

Context (settings : Settings) {RequestData User ValidatedData : Type}
  (id_fields : ValidatedData -> gmap string (option Z))
  (is_valid : RequestData -> option ValidatedData)
  (serializer_row : ValidatedData -> User -> DB -> option Activation).

Local Abbreviation create'' :=
  (create settings RequestData User ValidatedData id_fields is_valid
     serializer_row).

(** A successful [create], taken apart. *)
Lemma create_ok_inv request_data request_user w resp w' :
  create'' request_data request_user w = (Ok resp, w') →
  ∃ validated_data row ds,
    is_valid request_data = Some validated_data
    ∧ serializer_row validated_data request_user (db w) = Some row
    ∧ db w' = set_activations (<[id row := row]> (activations (db w))) (db w)
    ∧ refs_resolvable (db w') row
    ∧ _get_activation_dependent_objects row w' = (Ok ds, w')
    ∧ resp = {| data := Some {| deps := ds; rules_count := 0;
                                rules_fired_count := 0 |};
                status_code := 201 |}.
Proof.
  unfold create.
  destruct (is_valid request_data) as [vd|]; [|discriminate].
  unfold bind at 1, serializer_create.
  destruct (serializer_row vd request_user (db w)) as [row|] eqn:Es.
  2:{ destruct (handle_activation_create_conflict_raises Activation
                  (id_fields vd) w) as (detail & _ & Hc).
      unfold bind at 1. rewrite Hc. discriminate. }
  unfold bind at 1, ret at 1. unfold bind at 1.
  match goal with
  | |- context [_get_activation_dependent_objects row ?w1] =>
      set (wi := w1);
      destruct (_get_activation_dependent_objects row wi)
        as [[ds|e] w2] eqn:Ed; [|discriminate]
  end.
  pose proof (_get_activation_dependent_objects_ok_resolvable _ _ _ _ Ed)
    as Hres.
  rewrite (_get_activation_dependent_objects_resolved row wi Hres) in Ed.
  injection Ed as Hds <-.
  intros Hrun. exists vd, row, ds. split; [reflexivity|].
  split; [exact Es|].
  assert (Hdb : db w' = db wi).
  { revert Hrun. unfold bind, delay, ret.
    destruct (is_enabled row); intros [= _ <-]; reflexivity. }
  rewrite Hdb. split; [reflexivity|]. split; [exact Hres|].
  split.
  - rewrite <- Hds.
    rewrite (_get_activation_dependent_objects_resolved row w')
      by (unfold refs_resolvable in *; rewrite Hdb; exact Hres).
    rewrite Hdb. reflexivity.
  - revert Hrun. unfold bind, delay, ret.
    destruct (is_enabled row); intros [= <- _]; reflexivity.
Qed.

(** X13.  A create request that fails before a row is stored persists
    nothing and dispatches nothing: when validation fails it raises
    [ValidationError], when the insert hits an integrity violation it
    raises the [Unprocessable] of the conflict resolver, a 422, and in
    both cases the world is exactly what it was. *)
Theorem create_failure_persists_nothing :
  ∀ (request_data : RequestData) (request_user : User) (w : World),
    (is_valid request_data = None →
       create'' request_data request_user w = (Raise ValidationError, w))
    ∧ (∀ validated_data,
         is_valid request_data = Some validated_data →
         serializer_row validated_data request_user (db w) = None →
         ∃ detail,
           create'' request_data request_user w
           = (Raise (Unprocessable detail), w)
           ∧ exn_status_code (Unprocessable detail) = 422
           ∧ conflict_loop
               (activation_dependent_objects (db w)
                  (id_fields validated_data))
             = Unprocessable detail).
Proof.
  intros request_data request_user w. unfold create. split.
  - intros ->. reflexivity.
  - intros vd -> Hrow.
    destruct (handle_activation_create_conflict_raises Activation
                (id_fields vd) w) as (detail & Hloop & Hc).
    exists detail. unfold bind at 1, serializer_create. rewrite Hrow.
    unfold bind at 1. rewrite Hc. repeat split. exact Hloop.
Qed.

(** X14.  What [create] answers can be read back: after a successful
    create, [retrieve] of the new row's key answers 200 with the same
    row, referenced objects, instances and [restarted_at] as the create
    response, and does not change the world. *)
Theorem create_then_retrieve :
  ∀ (request_data : RequestData) (request_user : User) (w w' : World)
    (resp : Response),
    create'' request_data request_user w = (Ok resp, w') →
    ∃ ar ar',
      data resp = Some ar
      ∧ retrieve (id (dep_activation (deps ar))) w'
        = (Ok {| data := Some ar'; status_code := 200 |}, w')
      ∧ deps ar' = deps ar
      ∧ activations (db w') !! id (dep_activation (deps ar))
        = Some (dep_activation (deps ar)).
Proof.
  intros request_data request_user w w' resp Hrun.
  destruct (create_ok_inv _ _ _ _ _ Hrun)
    as (vd & row & ds & _ & _ & Hdb & Hres & Hds & ->).
  assert (Hrow : dep_activation ds = row).
  { rewrite (_get_activation_dependent_objects_resolved row w' Hres) in Hds.
    injection Hds as <-. reflexivity. }
  assert (Hlook : activations (db w') !! id row = Some row)
    by (rewrite Hdb; cbn; apply lookup_insert_eq).
  exists {| deps := ds; rules_count := 0; rules_fired_count := 0 |},
         {| deps := ds;
            rules_count := (_get_rules_count (ruleset_stats row)).1;
            rules_fired_count := (_get_rules_count (ruleset_stats row)).2 |}.
  split; [reflexivity|]. cbn [deps]. rewrite Hrow.
  split; [|split; [reflexivity|exact Hlook]].
  unfold retrieve, bind at 1.
  rewrite (get_object_or_404_found _ _ _ Hlook).
  unfold bind at 1. rewrite Hds. rewrite Hrow.
  destruct (_get_rules_count (ruleset_stats row)) as [c f].
  unfold ret. reflexivity.
Qed.

End CreateMore.

Lemma create_then_retrieve_sample :
  ∃ resp w' ar ar',
    sample_create (sample_payload true) sample_world = (Ok resp, w')
    ∧ data resp = Some ar
    ∧ retrieve (id (dep_activation (deps ar))) w'
      = (Ok {| data := Some ar'; status_code := 200 |}, w')
    ∧ deps ar' = deps ar.
Proof.
  destruct (sample_create (sample_payload true) sample_world)
    as [[resp|e] w'] eqn:E.
  - destruct (create_then_retrieve default_settings fst sample_is_valid
                sample_serializer_row (sample_payload true) "admin"
                sample_world w' resp E)
      as (ar & ar' & Hd & Hr & Hdeps & _).
    exists resp, w', ar, ar'. repeat split; assumption.
  - exfalso. apply (f_equal fst) in E. vm_compute in E. discriminate E.
Defined.

(** ** The sub-resource listings *)

Lemma Forall_sublist {A} (P : A -> Prop) (k l : list A) :
  k `sublist_of` l → Forall P l → Forall P k.
Proof.
  intros Hs Hl. rewrite Forall_forall in *. intros x Hx.
  apply Hl. exact (elem_of_sublist _ _ _ Hx Hs).
Qed.

Lemma StronglySorted_sublist {A} (R : relation A) (k l : list A) :
  k `sublist_of` l → StronglySorted R l → StronglySorted R k.
Proof.
  intros Hs. induction Hs as [|x k l Hs IH|x k l Hs IH]; intros Hl.
  - constructor.
  - apply StronglySorted_inv in Hl as [Hl Hx].
    constructor; [apply IH; exact Hl|].
    exact (Forall_sublist _ _ _ Hs Hx).
  - apply StronglySorted_inv in Hl as [Hl _]. apply IH. exact Hl.
Qed.

#[local] Instance log_le_trans : Transitive log_le.
Proof. intros a b c. unfold log_le. lia. Qed.

#[local] Instance log_le_total : Total log_le.
Proof. intros a b. unfold log_le. lia. Qed.

Section ListingsFacts.

Context (filter_instances paginate_instances :
           list ActivationInstance -> list ActivationInstance)
  (filter_logs paginate_logs :
     list ActivationInstanceLog -> list ActivationInstanceLog).

(** X15.  The instance listing of an Activation that is not stored raises
    [NotFound], a 404 that names the id, and otherwise answers with rows
    without changing the world.  When filtering and pagination only
    select rows, every row of the answer is an instance row of that
    Activation and the rows come in the order of the underlying
    queryset. *)
Theorem instances_listing_belongs_to_activation :
  ∀ (pk : Z) (w : World),
    (∀ l, filter_instances l `sublist_of` l) →
    (∀ l, paginate_instances l `sublist_of` l) →
    (activations (db w) !! pk = None →
       ActivationViewSet_instances filter_instances paginate_instances pk w
       = (Raise (NotFound ("Activation with ID=" +:+ PyStr.str pk
                             +:+ " does not exist.")), w))
    ∧ (is_Some (activations (db w) !! pk) →
       ∃ rows,
         ActivationViewSet_instances filter_instances paginate_instances pk w
         = (Ok rows, w)
         ∧ rows `sublist_of` instances (db w)
         ∧ ∀ i, i ∈ rows →
             i ∈ instances (db w) ∧ inst_activation_id i = pk).
Proof.
  intros pk w Hf Hp. unfold ActivationViewSet_instances, bind, get_db.
  split.
  - intros Hnone. rewrite Hnone.
    rewrite bool_decide_eq_false_2 by (intros [x Hx]; discriminate).
    reflexivity.
  - intros Hsome. rewrite (bool_decide_eq_true_2 _ Hsome). cbn [negb].
    eexists. split; [reflexivity|].
    assert (Hsub : paginate_instances
                     (filter_instances (instances_of (db w) pk))
                   `sublist_of` instances_of (db w) pk)
      by (etrans; [apply Hp|apply Hf]).
    split.
    + etrans; [exact Hsub|]. apply sublist_filter.
    + intros i Hi. pose proof (elem_of_sublist _ _ _ Hi Hsub) as Hin.
      unfold instances_of in Hin. apply list_elem_of_filter in Hin. tauto.
Qed.

(** X16.  The log listing of an instance that is not stored raises
    [NotFound], a 404 that names the id, and otherwise answers with rows
    without changing the world.  When filtering and pagination only
    select rows, every row of the answer is a stored log row of that
    instance and the rows come in ascending order of their ids. *)
Theorem logs_listing_sorted_by_id :
  ∀ (log_rows : list ActivationInstanceLog) (pk : Z) (w : World),
    (∀ l, filter_logs l `sublist_of` l) →
    (∀ l, paginate_logs l `sublist_of` l) →
    ((∀ i, i ∈ instances (db w) → inst_id i ≠ pk) →
       ActivationInstanceViewSet_logs filter_logs paginate_logs log_rows pk w
       = (Raise (NotFound ("Activation Instance with ID=" +:+ PyStr.str pk
                             +:+ " does not exist.")), w))
    ∧ ((∃ i, i ∈ instances (db w) ∧ inst_id i = pk) →
       ∃ rows,
         ActivationInstanceViewSet_logs filter_logs paginate_logs log_rows
           pk w = (Ok rows, w)
         ∧ StronglySorted log_le rows
         ∧ ∀ l, l ∈ rows →
             l ∈ log_rows ∧ log_activation_instance_id l = pk).
Proof.
  intros log_rows pk w Hf Hp.
  unfold ActivationInstanceViewSet_logs, bind, get_db. split.
  - intros Hnone.
    rewrite bool_decide_eq_false_2; [reflexivity|].
    rewrite Exists_exists. intros (i & Hi & Hid). exact (Hnone i Hi Hid).
  - intros Hsome.
    rewrite bool_decide_eq_true_2 by (rewrite Exists_exists; exact Hsome).
    cbn [negb]. eexists. split; [reflexivity|].
    set (own := filter (fun l => log_activation_instance_id l = pk) log_rows).
    assert (Hsub : paginate_logs (filter_logs (order_by_id own))
                   `sublist_of` order_by_id own)
      by (etrans; [apply Hp|apply Hf]).
    split.
    + apply (StronglySorted_sublist _ _ _ Hsub).
      unfold order_by_id. apply StronglySorted_merge_sort; apply _.
    + intros l Hl. pose proof (elem_of_sublist _ _ _ Hl Hsub) as Hin.
      unfold order_by_id in Hin. rewrite merge_sort_Permutation in Hin.
      unfold own in Hin. apply list_elem_of_filter in Hin. tauto.
Qed.

End ListingsFacts.

Lemma instances_listing_belongs_to_activation_sample :
  (∀ l : list ActivationInstance,
     filter (fun i => inst_status i = RUNNING) l `sublist_of` l)
  ∧ (∀ l : list ActivationInstance, take 20 l `sublist_of` l)
  ∧ ActivationViewSet_instances (filter (fun i => inst_status i = RUNNING))
      (take 20) 2 sample_world
    = (Ok [sample_instance 11 2 RUNNING; sample_instance 13 2 RUNNING],
       sample_world)
  ∧ ∃ rows,
      ActivationViewSet_instances (filter (fun i => inst_status i = RUNNING))
        (take 20) 2 sample_world = (Ok rows, sample_world)
      ∧ rows `sublist_of` instances (db sample_world).
Proof.
  assert (Hf : ∀ l : list ActivationInstance,
             filter (fun i => inst_status i = RUNNING) l `sublist_of` l)
    by (intros l; apply sublist_filter).
  assert (Hp : ∀ l : list ActivationInstance, take 20 l `sublist_of` l)
    by (intros l; apply sublist_take).
  split; [exact Hf|]. split; [exact Hp|].
  split; [vm_compute; reflexivity|].
  destruct (instances_listing_belongs_to_activation _ _ 2 sample_world Hf Hp)
    as [_ Hsome].
  destruct Hsome as (rows & Hrun & Hsub & _).
  - rewrite sample_lookup_2. eauto.
  - exists rows. split; [exact Hrun|exact Hsub].
Defined.

Lemma logs_listing_sorted_by_id_sample :
  (∀ l : list ActivationInstanceLog, drop 1 l `sublist_of` l)
  ∧ (∀ l : list ActivationInstanceLog, take 20 l `sublist_of` l)
  ∧ ActivationInstanceViewSet_logs (drop 1) (take 20) sample_logs 11
      sample_world
    = (Ok [sample_log 8 11; sample_log 30 11], sample_world)
  ∧ ∃ rows,
      ActivationInstanceViewSet_logs (drop 1) (take 20) sample_logs 11
        sample_world = (Ok rows, sample_world)
      ∧ StronglySorted log_le rows.
Proof.
  assert (Hf : ∀ l : list ActivationInstanceLog, drop 1 l `sublist_of` l)
    by (intros l; apply sublist_drop).
  assert (Hp : ∀ l : list ActivationInstanceLog, take 20 l `sublist_of` l)
    by (intros l; apply sublist_take).
  split; [exact Hf|]. split; [exact Hp|].
  split; [vm_compute; reflexivity|].
  destruct (logs_listing_sorted_by_id _ _ sample_logs 11 sample_world Hf Hp)
    as [_ Hsome].
  destruct Hsome as (rows & Hrun & Hsorted & _).
  - exists (sample_instance 11 2 RUNNING). split; [|reflexivity].
    apply list_elem_of_further, list_elem_of_here.
  - exists rows. split; [exact Hrun|exact Hsorted].
Defined.

(** X17.  The Activation listing runs the monitoring pass first and shows
    what the pass leaves behind: when the pass raises, the listing raises
    the same exception and answers nothing; otherwise the entries are the
    rows of the page computed from the tables as they are after the pass,
    in the same order, each with [rules_count] and [rules_fired_count]
    the sums over its own [ruleset_stats], and the listing itself adds
    nothing to the world the pass produced. *)
Theorem list_reflects_monitoring_pass :
  ∀ (monitor_activations : M unit) (list_page : DB -> list Activation)
    (w : World),
    (∀ e w1, monitor_activations w = (Raise e, w1) →
       ActivationViewSet_list monitor_activations list_page w
       = (Raise e, w1))
    ∧ (∀ u w1, monitor_activations w = (Ok u, w1) →
       ∃ entries,
         ActivationViewSet_list monitor_activations list_page w
         = (Ok entries, w1)
         ∧ entry_activation <$> entries = list_page (db w1)
         ∧ Forall
             (fun entry =>
                entry_rules_count entry
                = stats_sum numberOfRules
                    (ruleset_stats (entry_activation entry))
                ∧ entry_rules_fired_count entry
                  = stats_sum rulesTriggered
                      (ruleset_stats (entry_activation entry)))
             entries).
Proof.
  intros monitor_activations list_page w.
  unfold ActivationViewSet_list, bind, get_db, ret. split.
  - intros e w1 ->. reflexivity.
  - intros u w1 ->. eexists. split; [reflexivity|].
    induction (list_page (db w1)) as [|a l [IH1 IH2]].
    + split; [reflexivity|constructor].
    + cbn [fmap list_fmap]. rewrite _get_rules_count_sums. cbn.
      split; [f_equal; exact IH1|].
      constructor; [split; reflexivity|exact IH2].
Qed.

(** * Properties of the settings module *)

(** ** Stripping and splitting *)

Lemma str_app_nil (s : string) : EmptyString +:+ s = s.
Proof. reflexivity. Qed.

Lemma str_app_cons c (r s : string) : String c r +:+ s = String c (r +:+ s).
Proof. reflexivity. Qed.

Lemma lstrip_by_spec p s :
  ∃ pre,
    s = pre +:+ PyStrOps.lstrip_by p s
    ∧ PyStrOps.all_chars p pre = true
    ∧ ∀ c, PyStrOps.first_char (PyStrOps.lstrip_by p s) = Some c →
           p c = false.
Proof.
  induction s as [|c r (pre & Hr & Hpre & Hfirst)].
  - exists EmptyString. repeat split. discriminate.
  - cbn [PyStrOps.lstrip_by]. destruct (p c) eqn:Hc.
    + exists (String c pre). rewrite str_app_cons, <- Hr.
      split; [reflexivity|].
      split; [cbn; rewrite Hc; exact Hpre|exact Hfirst].
    + exists EmptyString. repeat split. intros c' [= <-]. exact Hc.
Qed.

Lemma rstrip_by_spec p s :
  ∃ post,
    s = PyStrOps.rstrip_by p s +:+ post
    ∧ PyStrOps.all_chars p post = true
    ∧ (∀ c, PyStrOps.last_char (PyStrOps.rstrip_by p s) = Some c →
            p c = false)
    ∧ (∀ c, PyStrOps.first_char (PyStrOps.rstrip_by p s) = Some c →
            PyStrOps.first_char s = Some c).
Proof.
  induction s as [|c r (post & Hr & Hpost & Hlast & _)].
  - exists EmptyString. repeat split; discriminate.
  - cbn [PyStrOps.rstrip_by].
    destruct (PyStrOps.rstrip_by p r) as [|c' kept] eqn:E.
    + rewrite str_app_nil in Hr. subst post. destruct (p c) eqn:Hc.
      * exists (String c r). rewrite str_app_nil.
        split; [reflexivity|].
        split; [cbn; rewrite Hc; exact Hpost|].
        split; discriminate.
      * exists r. rewrite str_app_cons, str_app_nil.
        split; [reflexivity|]. split; [exact Hpost|]. split.
        -- intros c0 [= <-]. exact Hc.
        -- intros c0 H. exact H.
    + exists post. rewrite str_app_cons, <- Hr.
      split; [reflexivity|]. split; [exact Hpost|]. split.
      * intros c0 H. apply Hlast. exact H.
      * intros c0 H. exact H.
Qed.

(** What is left after a strip: the text between a run of stripped
    characters at each end, with no stripped character first or last. *)
Lemma strip_by_spec p s :
  ∃ pre post,
    s = pre +:+ (PyStrOps.strip_by p s +:+ post)
    ∧ PyStrOps.all_chars p pre = true
    ∧ PyStrOps.all_chars p post = true
    ∧ (∀ c, PyStrOps.first_char (PyStrOps.strip_by p s) = Some c →
            p c = false)
    ∧ (∀ c, PyStrOps.last_char (PyStrOps.strip_by p s) = Some c →
            p c = false).
Proof.
  destruct (lstrip_by_spec p s) as (pre & Hs & Hpre & Hfirst).
  destruct (rstrip_by_spec p (PyStrOps.lstrip_by p s))
    as (post & Hl & Hpost & Hlast & Hkeep).
  exists pre, post. unfold PyStrOps.strip_by.
  split; [rewrite <- Hl; exact Hs|].
  split; [exact Hpre|]. split; [exact Hpost|].
  split; [|exact Hlast].
  intros c Hc. apply Hfirst, Hkeep. exact Hc.
Qed.

Lemma split_nonempty sep s : PyStrOps.split sep s ≠ [].
Proof.
  destruct s as [|c r]; cbn; [discriminate|].
  destruct (bool_decide (c = sep)); [discriminate|].
  destruct (PyStrOps.split sep r); discriminate.
Qed.

Lemma split_spec sep s :
  PyStrOps.join (String sep EmptyString) (PyStrOps.split sep s) = s
  ∧ Forall (fun piece => PyStrOps.count_char sep piece = O)
      (PyStrOps.split sep s)
  ∧ length (PyStrOps.split sep s) = S (PyStrOps.count_char sep s).
Proof.
  induction s as [|c r (Hjoin & Hnone & Hlen)].
  - cbn. repeat split. constructor; [reflexivity|constructor].
  - cbn [PyStrOps.split PyStrOps.count_char].
    destruct (bool_decide (c = sep)) eqn:Hc.
    + apply bool_decide_eq_true in Hc. subst c.
      pose proof (split_nonempty sep r) as Hne.
      destruct (PyStrOps.split sep r) as [|piece pieces] eqn:E;
        [contradiction|].
      split; [|split].
      * change (PyStrOps.join (String sep EmptyString)
                  (EmptyString :: piece :: pieces))
          with (EmptyString +:+ (String sep EmptyString
                  +:+ PyStrOps.join (String sep EmptyString)
                        (piece :: pieces))).
        rewrite Hjoin. reflexivity.
      * constructor; [reflexivity|exact Hnone].
      * cbn [length] in *. lia.
    + pose proof (split_nonempty sep r) as Hne.
      destruct (PyStrOps.split sep r) as [|piece pieces] eqn:E;
        [contradiction|].
      apply Forall_cons in Hnone as [Hpiece Hpieces].
      split; [|split].
      * destruct pieces as [|q qs].
        -- cbn [PyStrOps.join] in *. rewrite Hjoin. reflexivity.
        -- change (PyStrOps.join (String sep EmptyString)
                     (String c piece :: q :: qs))
             with (String c piece +:+ (String sep EmptyString
                     +:+ PyStrOps.join (String sep EmptyString) (q :: qs))).
           change (PyStrOps.join (String sep EmptyString) (piece :: q :: qs))
             with (piece +:+ (String sep EmptyString
                     +:+ PyStrOps.join (String sep EmptyString) (q :: qs)))
             in Hjoin.
           rewrite str_app_cons, Hjoin. reflexivity.
      * constructor; [|exact Hpieces].
        cbn [PyStrOps.count_char]. rewrite Hc. exact Hpiece.
      * cbn [length] in *. lia.
Qed.

(** ** The secret key *)

Lemma truthy_Some v :
  PyStrOps.truthy v = true → ∃ c r, v = Some (String c r).
Proof. destruct v as [[|c r]|]; try discriminate. eauto. Qed.




(** ** Allowed hosts, the API prefix and the queues *)

(** X20.  A list given for ALLOWED_HOSTS is taken as it is and a missing
    parameter gives the empty list.  A string is cut at every comma:
    joining the hosts with commas gives the string back, no host contains
    a comma, and there is one host more than there are commas, so the
    empty string gives one empty host, not the empty list. *)
Theorem ALLOWED_HOSTS_splits_at_commas :
  ∀ (s : string) (l : list string),
    DefaultSettings.ALLOWED_HOSTS None = []
    ∧ DefaultSettings.ALLOWED_HOSTS (Some (DefaultSettings.HostsList l)) = l
    ∧ PyStrOps.join (String DefaultSettings.comma EmptyString)
        (DefaultSettings.ALLOWED_HOSTS (Some (DefaultSettings.HostsStr s)))
      = s
    ∧ Forall
        (fun host => PyStrOps.count_char DefaultSettings.comma host = O)
        (DefaultSettings.ALLOWED_HOSTS (Some (DefaultSettings.HostsStr s)))
    ∧ length
        (DefaultSettings.ALLOWED_HOSTS (Some (DefaultSettings.HostsStr s)))
      = S (PyStrOps.count_char DefaultSettings.comma s)
    ∧ DefaultSettings.ALLOWED_HOSTS
        (Some (DefaultSettings.HostsStr EmptyString))
      = [EmptyString].
Proof.
  intros s l. split; [reflexivity|]. split; [reflexivity|].
  destruct (split_spec DefaultSettings.comma s) as (Hjoin & Hnone & Hlen).
  split; [exact Hjoin|]. split; [exact Hnone|].
  split; [exact Hlen|reflexivity].
Qed.

Example ALLOWED_HOSTS_of_the_docstring :
  DefaultSettings.ALLOWED_HOSTS
    (Some (DefaultSettings.HostsStr "localhost,127.0.0.1"))
  = ["localhost"; "127.0.0.1"].
Proof. vm_compute. reflexivity. Qed.

(** X21.  The API prefix is the configured value, "api/eda" when none is
    configured, without the slashes around it: the value is a run of
    slashes, the prefix, a run of slashes, and the prefix neither starts
    nor ends with a slash; the schema path prefix and the server URL put
    exactly one slash before it. *)
Theorem API_PREFIX_has_no_outer_slash :
  ∀ (setting : option string),
    ∃ pre post,
      default "api/eda" setting
      = pre +:+ (DefaultSettings.API_PREFIX setting +:+ post)
      ∧ PyStrOps.all_chars (PyStrOps.is_char DefaultSettings.slash) pre = true
      ∧ PyStrOps.all_chars (PyStrOps.is_char DefaultSettings.slash) post
        = true
      ∧ PyStrOps.first_char (DefaultSettings.API_PREFIX setting)
        ≠ Some DefaultSettings.slash
      ∧ PyStrOps.last_char (DefaultSettings.API_PREFIX setting)
        ≠ Some DefaultSettings.slash
      ∧ DefaultSettings.API_PREFIX None = "api/eda"
      ∧ DefaultSettings.SCHEMA_PATH_PREFIX setting
        = String DefaultSettings.slash
            (DefaultSettings.API_PREFIX setting +:+ "/v[0-9]")
      ∧ DefaultSettings.SERVERS_url setting
        = String DefaultSettings.slash
            (DefaultSettings.API_PREFIX setting +:+ "/v1").
Proof.
  intros setting.
  destruct (strip_by_spec (PyStrOps.is_char DefaultSettings.slash)
              (default "api/eda" setting))
    as (pre & post & Hc & Hpre & Hpost & Hfirst & Hlast).
  exists pre, post. unfold DefaultSettings.API_PREFIX.
  split; [exact Hc|]. split; [exact Hpre|]. split; [exact Hpost|].
  split.
  { intros H. specialize (Hfirst _ H). unfold PyStrOps.is_char in Hfirst.
    rewrite bool_decide_eq_true_2 in Hfirst by reflexivity. discriminate. }
  split.
  { intros H. specialize (Hlast _ H). unfold PyStrOps.is_char in Hlast.
    rewrite bool_decide_eq_true_2 in Hlast by reflexivity. discriminate. }
  split; [vm_compute; reflexivity|]. split; reflexivity.
Qed.

Example API_PREFIX_strips_slashes :
  DefaultSettings.API_PREFIX (Some "//api/eda/v2/") = "api/eda/v2"
  ∧ DefaultSettings.API_PREFIX (Some "///") = ""
  ∧ DefaultSettings.SCHEMA_PATH_PREFIX (Some "/eda/") = "/eda/v[0-9]".
Proof. repeat split; vm_compute; reflexivity. Qed.

(** X22.  The two queues, "default" and "activation", are always
    configured alike and always carry the database number, 0 when none is
    configured.  When a unix socket path is set the queues carry that
    path and neither host nor port, so the host and port parameters are
    ignored; otherwise they carry host, port and a timeout of -1, with
    "localhost" and 6379 when none is configured, and no socket path. *)
Theorem RQ_QUEUES_socket_or_host :
  ∀ (s : DefaultSettings.MQSettings),
    let queues := DefaultSettings.RQ_QUEUES s in
    ∃ cfg,
      queues !! "default" = Some cfg
      ∧ queues !! "activation" = Some cfg
      ∧ (∀ q, is_Some (queues !! q) → q = "default" ∨ q = "activation")
      ∧ cfg !! "DB"
        = Some (DefaultSettings.CInt
                  (default 0 (DefaultSettings.MQ_DB s)))
      ∧ (PyStrOps.truthy (DefaultSettings.MQ_UNIX_SOCKET_PATH s) = true →
           cfg !! "UNIX_SOCKET_PATH"
           = DefaultSettings.CStr <$> DefaultSettings.MQ_UNIX_SOCKET_PATH s
           ∧ cfg !! "HOST" = None
           ∧ cfg !! "PORT" = None
           ∧ cfg !! "DEFAULT_TIMEOUT" = None)
      ∧ (PyStrOps.truthy (DefaultSettings.MQ_UNIX_SOCKET_PATH s) = false →
           cfg !! "UNIX_SOCKET_PATH" = None
           ∧ cfg !! "HOST"
             = Some (DefaultSettings.CStr
                       (default "localhost" (DefaultSettings.MQ_HOST s)))
           ∧ cfg !! "PORT"
             = Some (DefaultSettings.CInt
                       (default 6379 (DefaultSettings.MQ_PORT s)))
           ∧ cfg !! "DEFAULT_TIMEOUT" = Some (DefaultSettings.CInt (-1))).
Proof.
  intros s queues. subst queues. unfold DefaultSettings.RQ_QUEUES.
  set (db_value := DefaultSettings.CInt (default 0 (DefaultSettings.MQ_DB s))).
  assert (Hshape : ∀ base : gmap string DefaultSettings.ConfigValue,
            alter (insert "DB" db_value) "activation"
              (alter (insert "DB" db_value) "default"
                 ({[ "default" := base; "activation" := base ]}
                    : gmap string (gmap string DefaultSettings.ConfigValue)))
            = {[ "default" := <["DB" := db_value]> base;
                 "activation" := <["DB" := db_value]> base ]}).
  { intros base.
    rewrite alter_insert_eq.
    rewrite alter_insert_ne by discriminate.
    rewrite alter_singleton_eq. reflexivity. }
  assert (Hlook : ∀ cfg : gmap string DefaultSettings.ConfigValue,
            let queues : gmap string (gmap string DefaultSettings.ConfigValue)
              := {[ "default" := cfg; "activation" := cfg ]} in
            queues !! "default" = Some cfg
            ∧ queues !! "activation" = Some cfg
            ∧ ∀ q, is_Some (queues !! q) → q = "default" ∨ q = "activation").
  { intros cfg queues. subst queues.
    split; [apply lookup_insert_eq|].
    split; [rewrite lookup_insert_ne by discriminate;
            apply lookup_singleton_eq|].
    intros q [x Hx].
    destruct (decide (q = "default")) as [->|Hn1]; [left; reflexivity|].
    destruct (decide (q = "activation")) as [->|Hn2]; [right; reflexivity|].
    rewrite lookup_insert_ne, lookup_singleton_ne in Hx by congruence.
    discriminate. }
  destruct (PyStrOps.truthy (DefaultSettings.MQ_UNIX_SOCKET_PATH s)) eqn:Ht.
  - destruct (truthy_Some _ Ht) as (c & r & Hp). rewrite Hp.
    change (default EmptyString (Some (String c r))) with (String c r).
    rewrite Hshape.
    destruct (Hlook (<["DB" := db_value]>
                       {[ "UNIX_SOCKET_PATH"
                          := DefaultSettings.CStr (String c r) ]}))
      as (H1 & H2 & H3).
    eexists. split; [exact H1|]. split; [exact H2|]. split; [exact H3|].
    split; [apply lookup_insert_eq|]. split; [|discriminate]. intros _.
    repeat split; rewrite lookup_insert_ne by discriminate;
      first [apply lookup_singleton_eq
            | apply lookup_singleton_ne; discriminate].
  - rewrite Hshape.
    match goal with
    | |- context [<["DB" := db_value]> ?base] =>
        destruct (Hlook (<["DB" := db_value]> base)) as (H1 & H2 & H3)
    end.
    eexists. split; [exact H1|]. split; [exact H2|]. split; [exact H3|].
    split; [apply lookup_insert_eq|]. split; [discriminate|]. intros _.
    split; [|split; [|split]]; rewrite lookup_insert_ne by discriminate.
    + rewrite !lookup_insert_ne by discriminate.
      apply lookup_singleton_ne. discriminate.
    + apply lookup_insert_eq.
    + rewrite lookup_insert_ne by discriminate. apply lookup_insert_eq.
    + rewrite !lookup_insert_ne by discriminate. apply lookup_singleton_eq.
Qed.

(** * No activation of a disabled row *)

Lemma appended_inj w w' new1 new2 :
  appended w w' new1 → appended w w' new2 → new1 = new2.
Proof.
  unfold appended. intros H1 H2. rewrite H1 in H2.
  exact (app_inv_head _ _ _ H2).
Qed.

Lemma appended_nothing w new : appended w w new → new = [].
Proof.
  intros H. apply (appended_inj w w); [exact H|].
  unfold appended. rewrite app_nil_r. reflexivity.
Qed.

Lemma activates_only_enabled_unchanged settings pk w {A} (r : Result A) :
  activates_only_enabled settings pk w (r, w).
Proof.
  intros new Hnew j Hj _. cbn in Hnew.
  rewrite (appended_nothing _ _ Hnew) in Hj. inversion Hj.
Qed.

Lemma dispatched_restart_deactivations settings d pk j :
  j ∈ dispatched (restart_deactivations settings d pk) →
  is_activate j = false.
Proof.
  unfold restart_deactivations. destruct (head _) as [i|]; cbn.
  - intros Hj. apply elem_of_cons in Hj as [->|Hj]; [reflexivity|].
    inversion Hj.
  - intros Hj. inversion Hj.
Qed.

(** X23.  On a stored row, whatever [enable], [disable], [restart] or a
    deletion dispatches, an "activate" job among it is the job for that
    Activation with the parameters of the settings, and the row is
    enabled when the request ends: the view set never dispatches an
    "activate" job for an Activation it leaves disabled or deletes. *)
Theorem transitions_activate_only_enabled_rows :
  ∀ (settings : Settings) (pk : Z) (w : World) (a : Activation),
    activations (db w) !! pk = Some a →
    id a = pk →
    activates_only_enabled settings pk w (enable settings pk w)
    ∧ activates_only_enabled settings pk w (disable pk w)
    ∧ activates_only_enabled settings pk w (restart settings pk w)
    ∧ activates_only_enabled settings pk w (destroy settings pk w).
Proof.
  intros settings pk w a Ha <-.
  pose proof (get_object_or_404_found _ _ _ Ha) as Hg.
  split; [|split; [|split]].
  - destruct (is_enabled a) eqn:Hen.
    + replace (enable settings (id a) w)
        with (Ok {| data := None; status_code := HTTP_204_NO_CONTENT |}, w)
        by (unfold enable, bind at 1; rewrite Hg, Hen; reflexivity).
      apply activates_only_enabled_unchanged.
    + destruct (busy_status_dec (status a)) as [Hb|[Hb _]].
      * replace (enable settings (id a) w)
          with (Ok {| data := None; status_code := HTTP_409_CONFLICT |}, w)
          by (unfold enable, bind at 1; rewrite Hg, Hen, Hb; reflexivity).
        apply activates_only_enabled_unchanged.
      * rewrite (enable_idle_run settings w a Ha Hen Hb).
        intros new Hnew j Hj Hact. cbn [snd] in *.
        assert (Hnew' : new = [ EvSave (id a)
                                  ["is_enabled"; "failure_count"; "status";
                                   "modified_at"];
                                EvDispatch (activate_job settings (id a));
                                EvSave (id a) ["current_job_id"] ])
          by (apply (appended_inj _ _ _ _ Hnew); reflexivity).
        subst new. cbn in Hj.
        apply elem_of_cons in Hj as [->|Hj]; [|inversion Hj].
        split; [reflexivity|]. eexists. cbn.
        split; [apply lookup_insert_eq|reflexivity].
  - destruct (is_enabled a) eqn:Hen.
    + rewrite (disable_enabled_run w a Ha Hen).
      intros new Hnew j Hj Hact. cbn [snd] in *.
      assert (Hnew' : new = [ EvSave (id a)
                                ["is_enabled"; "status"; "modified_at"];
                              EvDispatch (deactivate (id a)) ])
        by (apply (appended_inj _ _ _ _ Hnew); reflexivity).
      subst new. cbn in Hj.
      apply elem_of_cons in Hj as [->|Hj]; [discriminate|inversion Hj].
    + replace (disable (id a) w)
        with (Ok {| data := None; status_code := HTTP_204_NO_CONTENT |}, w)
        by (unfold disable, bind at 1; unfold bind at 1;
            rewrite Hg, Hen; reflexivity).
      apply activates_only_enabled_unchanged.
  - destruct (is_enabled a) eqn:Hen.
    + destruct (restart_enabled_run settings w a Ha Hen)
        as (w' & Hrun & Htab & _ & Happ).
      rewrite Hrun. intros new Hnew j Hj Hact. cbn [snd] in *.
      rewrite <- (appended_inj _ _ _ _ Happ Hnew) in Hj.
      rewrite dispatched_app in Hj. apply elem_of_app in Hj as [Hj|Hj].
      * apply dispatched_restart_deactivations in Hj. congruence.
      * cbn in Hj. apply elem_of_cons in Hj as [->|Hj]; [|inversion Hj].
        split; [reflexivity|]. eexists. rewrite Htab.
        split; [apply lookup_insert_eq|exact Hen].
    + replace (restart settings (id a) w)
        with (Raise (A := Response)
                (HttpForbidden "Activation is disabled and cannot be run."),
              w)
        by (unfold restart, bind at 1; rewrite Hg, Hen; reflexivity).
      apply activates_only_enabled_unchanged.
  - rewrite (destroy_run settings w a Ha).
    intros new Hnew j Hj Hact. cbn [snd] in *. exfalso.
    unfold appended in Hnew. cbn [events] in Hnew.
    rewrite <- app_assoc in Hnew. apply app_inv_head in Hnew. subst new.
    rewrite dispatched_app, dispatched_fmap_dispatch in Hj.
    apply elem_of_app in Hj as [Hj|Hj]; [|inversion Hj].
    apply list_elem_of_fmap in Hj as (i & -> & _). discriminate.
Qed.

Lemma transitions_activate_only_enabled_rows_sample :
  activations (db sample_world) !! 1 = Some (sample_activation 1 false STOPPED)
  ∧ activates_only_enabled default_settings 1 sample_world
      (enable default_settings 1 sample_world)
  ∧ activates_only_enabled default_settings 1 sample_world
      (disable 1 sample_world)
  ∧ activates_only_enabled default_settings 1 sample_world
      (restart default_settings 1 sample_world)
  ∧ activates_only_enabled default_settings 1 sample_world
      (destroy default_settings 1 sample_world).
Proof.
  split; [exact sample_lookup_1|].
  exact (transitions_activate_only_enabled_rows default_settings 1
           sample_world (sample_activation 1 false STOPPED) sample_lookup_1
           eq_refl).
Defined.

(** * The outcomes of a retrieval *)

